(** * Qubic withdrawal service: the [/process-withdrawal] handler

    A shallow embedding of the Express handler of [withdrawal-service.js] and
    of its near-identical copy [withdrawal-service (1).js].

    The handler is an [async] function: a straight-line sequence of awaited
    calls to three collaborators (the record store, the Qubic RPC gateway and
    the transaction builder of the Qubic library), wrapped in one
    [try]/[catch].  It is embedded as a tree of operations ([Prog]): every
    call the handler makes is a node, its continuation receives what the
    collaborator answered (a value or a raised exception).  The trees are run
    against a store and an environment that fixes the collaborators' answers,
    either alone ([run]) or interleaved with other invocations at the
    [await] points ([interleave]).

    JavaScript numbers are IEEE 754 binary64 values ([spec_float] with
    precision 53 and maximal exponent 1024); sums, the product by 0.55, the
    difference and the comparison round as doubles do. *)

From Stdlib Require Import Bool List String ZArith QArith Lia.
From Stdlib Require Import Lqa.
From Stdlib Require Import Floats.SpecFloat.
Import ListNotations.

Local Open Scope string_scope.

(** ** JavaScript values the handler manipulates *)

(** A value that is a string, [null] or [undefined]
    ([broadcastResult.txId], [transaction.getTxId()], [req.body.withdrawalId]). *)
Inductive JsString : Type :=
| JsUndefined
| JsNull
| JsStr (s : string).

(** Truthiness: only a non-empty string is truthy. *)
Definition truthy (v : JsString) : bool :=
  match v with
  | JsStr s => negb (String.eqb s "")
  | _ => false
  end.

(** [a || b] *)
Definition js_or (a b : JsString) : JsString :=
  if truthy a then a else b.

(** Interpolation of a value in a template literal. *)
Definition js_to_string (v : JsString) : string :=
  match v with
  | JsUndefined => "undefined"
  | JsNull => "null"
  | JsStr s => s
  end.

(** An [Error] object; only its [message] is ever read. *)
Record JsError : Type := mkError { message : string }.

(** A JavaScript number: an IEEE 754 binary64 value. *)
Definition double : Type := spec_float.

Definition zero : double := S754_zero false.

(** The integer [n] as a number. *)
Definition of_Z (n : Z) : double := binary_normalize 53 1024 n 0 false.

(** [a + b], [a * b], [a - b], [a < b] and [a <= b] on numbers. *)
Definition js_add (a b : double) : double := SFadd 53 1024 a b.
Definition js_mul (a b : double) : double := SFmul 53 1024 a b.
Definition js_sub (a b : double) : double := SFsub 53 1024 a b.
Definition js_lt (a b : double) : bool := SFltb a b.
Definition js_le (a b : double) : bool := SFleb a b.

(** Truthiness of a number: [0], [-0] and [NaN] are falsy. *)
Definition truthy_number (x : double) : bool :=
  match x with
  | S754_zero _ | S754_nan => false
  | _ => true
  end.

(** [x || 0] on a number. *)
Definition num_or_zero (x : double) : double :=
  if truthy_number x then x else zero.

(** [v || 0] and [Number(v)] on a column that holds a number or [null]. *)
Definition amount_or_zero (v : option double) : double :=
  match v with
  | Some x => num_or_zero x
  | None => zero
  end.

Definition Number (v : option double) : double :=
  match v with
  | Some x => x
  | None => zero
  end.

(** The literal [0.55]: the double nearest to 55/100, which is
    4953959590107546 * 2^-53. *)
Definition ratio : double := S754_finite false 4953959590107546 (-53).

(** The rational a number stands for ([0] for an infinity and for [NaN]). *)
Definition exact (x : double) : Q :=
  match x with
  | S754_finite s m e =>
      let v := (inject_Z (Z.pos m) * Qpower 2 e)%Q in
      if s then (- v)%Q else v
  | _ => 0%Q
  end.

(** ** The record store *)

(** A row of table [withdrawals]. *)
Record Withdrawal : Type := mkWithdrawal {
  w_id : string;
  w_user_id : string;
  w_to_address : string;
  w_amount : option double;
  w_status : string;
  w_tx_hash : option string;
  w_completed_at : option Z
}.

(** A row of table [transactions]. *)
Record Transaction : Type := mkTransaction {
  t_user_id : string;
  t_type : string;
  t_amount : option double;
  t_status : string;
  t_tx_hash : option string;
  t_created_at : Z
}.

Record Store : Type := mkStore {
  withdrawals : list Withdrawal;
  transactions : list Transaction
}.

(** The object passed to [.update(...)] on [withdrawals].  A key whose value
    is [undefined] is dropped when the request body is serialised, so the
    column keeps its value. *)
Record Patch : Type := mkPatch {
  p_status : string;
  p_tx_hash : JsString;
  p_completed_at : option Z
}.

Definition patch_column (v : JsString) (old : option string) : option string :=
  match v with
  | JsUndefined => old
  | JsNull => None
  | JsStr s => Some s
  end.

Definition apply_patch (p : Patch) (w : Withdrawal) : Withdrawal :=
  {| w_id := w_id w;
     w_user_id := w_user_id w;
     w_to_address := w_to_address w;
     w_amount := w_amount w;
     w_status := p_status p;
     w_tx_hash := patch_column (p_tx_hash p) (w_tx_hash w);
     w_completed_at := match p_completed_at p with
                       | Some t => Some t
                       | None => w_completed_at w
                       end |}.

(** [.from('withdrawals').update(p).eq('id', id)] *)
Definition update_withdrawals (p : Patch) (id : string) (rows : list Withdrawal)
  : list Withdrawal :=
  map (fun w => if String.eqb (w_id w) id then apply_patch p w else w) rows.

(** [.from('withdrawals').select('*').eq('id', id)] *)
Definition withdrawals_by_id (id : string) (rows : list Withdrawal)
  : list Withdrawal :=
  filter (fun w => String.eqb (w_id w) id) rows.

(** What [.single()] resolves to: the row when exactly one matches, an error
    otherwise. *)
Record SingleResult : Type := mkSingle {
  data : option Withdrawal;
  error : bool
}.

Definition single (rows : list Withdrawal) : SingleResult :=
  match rows with
  | [w] => {| data := Some w; error := false |}
  | _ => {| data := None; error := true |}
  end.

(** [.from('transactions').select('amount').eq('type', 'ai_mining')] *)
Definition select_ai_mining (rows : list Transaction) : list (option double) :=
  map t_amount (filter (fun t => String.eqb (t_type t) "ai_mining") rows).

(** [.from('withdrawals').select('amount').eq('status', 'completed')] *)
Definition select_completed (rows : list Withdrawal) : list (option double) :=
  map w_amount (filter (fun w => String.eqb (w_status w) "completed") rows).

(** The rows the second commit update addresses:
    [.eq('user_id', u).eq('type', 'withdrawal').is('tx_hash', null)]. *)
Definition open_withdrawal_tx (u : string) (t : Transaction) : bool :=
  String.eqb (t_user_id t) u && String.eqb (t_type t) "withdrawal" &&
  match t_tx_hash t with None => true | Some _ => false end.

(** Modelled from the spec: the store server is not part of this repository.
    The request of lines 186-196 carries
    [.order('created_at', { ascending: false }).limit(1)]; section 4.1,
    step 7 of the specification reads it as "selecting the most recently
    created such record", and that reading is what [latest_created],
    [update_first] and [update_transactions] follow: the greatest
    [created_at] among the addressed rows, and one row updated. *)
Fixpoint latest_created (u : string) (rows : list Transaction) : option Z :=
  match rows with
  | [] => None
  | t :: rest =>
      if open_withdrawal_tx u t then
        match latest_created u rest with
        | Some m => Some (Z.max (t_created_at t) m)
        | None => Some (t_created_at t)
        end
      else latest_created u rest
  end.

Definition complete_transaction (txHash : JsString) (t : Transaction) : Transaction :=
  {| t_user_id := t_user_id t;
     t_type := t_type t;
     t_amount := t_amount t;
     t_status := "completed";
     t_tx_hash := patch_column txHash (t_tx_hash t);
     t_created_at := t_created_at t |}.

(** Updates the first addressed row created at [m]. *)
Fixpoint update_first (u : string) (m : Z) (txHash : JsString)
    (rows : list Transaction) : list Transaction :=
  match rows with
  | [] => []
  | t :: rest =>
      if open_withdrawal_tx u t && Z.eqb (t_created_at t) m
      then complete_transaction txHash t :: rest
      else t :: update_first u m txHash rest
  end.

Definition update_transactions (txHash : JsString) (u : string)
    (rows : list Transaction) : list Transaction :=
  match latest_created u rows with
  | Some m => update_first u m txHash rows
  | None => rows
  end.

(** ** Collaborators and their answers *)

(** What an awaited call yields: a value, or a raised exception. *)
Inductive Outcome (A : Type) : Type :=
| Ok (a : A)
| Exn (e : JsError).
Arguments Ok {A} a.
Arguments Exn {A} e.

(** The body of the [status] response of the RPC gateway:
    [lastProcessedTick] may be missing, and so may its [tickNumber]. *)
Record TickData : Type := mkTickData {
  lastProcessedTick : option (option Z)
}.

(** What the transaction builder hands back: the signed package in base64
    and what [transaction.getTxId()] returns. *)
Record Built : Type := mkBuilt {
  base64Transaction : string;
  getTxId : JsString
}.

(** The JSON bodies the handler sends. *)
Inductive Body : Type :=
| ErrorBody (error : string)
| InsufficientBody (availableBalance : double)
| SuccessBody (txHash : JsString) (explorerUrl : string) (processingTime : Z).

(** The three places that update table [withdrawals], and the three that
    read the clock. *)
Inductive Site : Type := AtInsufficient | AtCommit | AtCatch.
Inductive ClockSite : Type := AtStart | AtCompletion | AtEnd.

(** Every call the handler makes.  [SelectWithdrawal] is the fetch of lines
    75-79, [SelectAiMined] and [SelectCompleted] the two balance queries
    (lines 98-101 and 106-109), [UpdateWithdrawals] the updates of lines
    116-119, 177-184 and 214-217, [UpdateTransactions] the one of lines
    186-196.  [FetchStatus] and [StatusJson] are lines 129 and 130.
    [CreateIdPackage] is the identity derivation of [withdrawal-service.js]
    (line 139, [helper.createIdPackage(TREASURY_SEED)], not awaited) and
    [CreatePublicIdFromSeed] that of the copy (line 92,
    [await helper.createPublicIdFromSeed(TREASURY_SEED)]); either yields the
    [publicId] read off the result on the next line.  [BuildTransfer] stands
    for the package builder and the signing that follow (lines 141-151) and
    receives that [publicId].  [FetchBroadcast] is the POST of lines 154-158 and
    yields [broadcastResponse.ok]; [BroadcastText] and [BroadcastJson] read
    its body, the latter yielding [broadcastResult.txId]. *)
Inductive Op : Type :=
| ConsoleLog (text : string)
| ConsoleError (text : string) (detail : option JsError)
| DateNow (at_ : ClockSite)
| SelectWithdrawal (id : string)
| SelectAiMined
| SelectCompleted
| UpdateWithdrawals (site : Site) (p : Patch) (id : string)
| UpdateTransactions (txHash : JsString) (user_id : string)
| FetchStatus
| StatusJson
| CreateIdPackage
| CreatePublicIdFromSeed
| BuildTransfer (source : JsString) (amount : double) (to_address : string) (tick : Z)
| FetchBroadcast (encodedTransaction : string)
| BroadcastText
| BroadcastJson
| Respond (status : Z) (body : Body).

Definition answer (o : Op) : Type :=
  match o with
  | ConsoleLog _ | ConsoleError _ _ | Respond _ _ => unit
  | DateNow _ => Z
  | SelectWithdrawal _ => SingleResult
  | SelectAiMined | SelectCompleted => option (list (option double))
  | UpdateWithdrawals _ _ _ | UpdateTransactions _ _ => unit
  | FetchStatus => unit
  | StatusJson => TickData
  | CreateIdPackage | CreatePublicIdFromSeed => JsString
  | BuildTransfer _ _ _ _ => Built
  | FetchBroadcast _ => bool
  | BroadcastText => string
  | BroadcastJson => JsString
  end.

(** The calls that are awaited: the points where another invocation of the
    handler can run. *)
Definition is_await (o : Op) : bool :=
  match o with
  | ConsoleLog _ | ConsoleError _ _ | DateNow _ | Respond _ _ => false
  | CreateIdPackage => false
  | _ => true
  end.

(** How a store call can go wrong: it resolves to [{ data: null, error }],
    or it raises. *)
Inductive Fault : Type :=
| NoFault
| ReturnsError
| Throws (e : JsError).

(** The answers of the collaborators during one invocation. *)
Record Env : Type := mkEnv {
  clock : ClockSite -> Z;
  select_withdrawal_fault : Fault;
  select_ai_mining_fault : Fault;
  select_completed_fault : Fault;
  update_withdrawals_fault : Site -> Fault;
  update_transactions_fault : Fault;
  fetch_status : Outcome unit;
  status_json : Outcome TickData;
  createIdPackage : Outcome JsString;
  createPublicIdFromSeed : Outcome JsString;
  build_transfer : JsString -> double -> string -> Z -> Outcome Built;
  fetch_broadcast : string -> Outcome bool;
  broadcast_text : Outcome string;
  broadcast_json : Outcome JsString
}.

Definition read {A : Type} (f : Fault) (rows : A) (null : A) : Outcome A :=
  match f with
  | NoFault => Ok rows
  | ReturnsError => Ok null
  | Throws e => Exn e
  end.

Definition write (f : Fault) (s s' : Store) : Outcome unit * Store :=
  match f with
  | NoFault => (Ok tt, s')
  | ReturnsError => (Ok tt, s)
  | Throws e => (Exn e, s)
  end.

(** One call against the store [s]. *)
Definition perform (env : Env) (s : Store) (o : Op) : Outcome (answer o) * Store :=
  match o return Outcome (answer o) * Store with
  | ConsoleLog _ => (Ok tt, s)
  | ConsoleError _ _ => (Ok tt, s)
  | Respond _ _ => (Ok tt, s)
  | DateNow c => (Ok (clock env c), s)
  | SelectWithdrawal id =>
      (read (select_withdrawal_fault env)
            (single (withdrawals_by_id id (withdrawals s)))
            {| data := None; error := true |}, s)
  | SelectAiMined =>
      (read (select_ai_mining_fault env)
            (Some (select_ai_mining (transactions s))) None, s)
  | SelectCompleted =>
      (read (select_completed_fault env)
            (Some (select_completed (withdrawals s))) None, s)
  | UpdateWithdrawals site p id =>
      write (update_withdrawals_fault env site) s
            {| withdrawals := update_withdrawals p id (withdrawals s);
               transactions := transactions s |}
  | UpdateTransactions txHash u =>
      write (update_transactions_fault env) s
            {| withdrawals := withdrawals s;
               transactions := update_transactions txHash u (transactions s) |}
  | FetchStatus => (fetch_status env, s)
  | StatusJson => (status_json env, s)
  | CreateIdPackage => (createIdPackage env, s)
  | CreatePublicIdFromSeed => (createPublicIdFromSeed env, s)
  | BuildTransfer source amount to tick =>
      (build_transfer env source amount to tick, s)
  | FetchBroadcast tx => (fetch_broadcast env tx, s)
  | BroadcastText => (broadcast_text env, s)
  | BroadcastJson => (broadcast_json env, s)
  end.

(** ** Handler programs *)

Inductive Prog : Type :=
| Ret
| Throw (e : JsError)
| Vis (o : Op) (k : Outcome (answer o) -> Prog).

(** A call whose exception propagates. *)
Definition call (o : Op) (k : answer o -> Prog) : Prog :=
  Vis o (fun r => match r with Ok a => k a | Exn e => Throw e end).

Notation "'let!' x ':=' o 'in' k" := (call o (fun x => k))
  (at level 10, x name, o at level 99, k at level 200).
Notation "o ';;' k" := (call o (fun _ => k))
  (at level 100, k at level 200, right associativity, only parsing).

(** [try { p } catch (e) { h e }] *)
Fixpoint try_catch (p : Prog) (h : JsError -> Prog) : Prog :=
  match p with
  | Ret => Ret
  | Throw e => h e
  | Vis o k => Vis o (fun r => try_catch (k r) h)
  end.

(** [p] followed by [q]. *)
Fixpoint seq (p q : Prog) : Prog :=
  match p with
  | Ret => q
  | Throw e => Throw e
  | Vis o k => Vis o (fun r => seq (k r) q)
  end.

(** How an invocation ends: the handler returns, or its promise rejects. *)
Inductive Completion : Type :=
| Returned
| Rejected (e : JsError).

Record Run : Type := mkRun {
  completion : Completion;
  final : Store;
  trace : list Op
}.

(** [run_from env p s done]: what is left of an invocation, [p], run to its
    end from store [s]; [done] holds the calls made so far, latest first. *)
Fixpoint run_from (env : Env) (p : Prog) (s : Store) (done : list Op) : Run :=
  match p with
  | Ret => {| completion := Returned; final := s; trace := rev done |}
  | Throw e => {| completion := Rejected e; final := s; trace := rev done |}
  | Vis o k =>
      let (a, s') := perform env s o in
      run_from env (k a) s' (o :: done)
  end.

(** One invocation run alone to its end; [trace] lists its calls in order. *)
Definition run (env : Env) (p : Prog) (s : Store) : Run := run_from env p s [].

(** The response sent: the last [res.json(...)] of the trace. *)
Fixpoint response (t : list Op) : option (Z * Body) :=
  match t with
  | [] => None
  | o :: rest =>
      match response rest with
      | Some r => Some r
      | None => match o with
                | Respond st b => Some (st, b)
                | _ => None
                end
      end
  end.

Definition is_broadcast (o : Op) : bool :=
  match o with
  | FetchBroadcast _ => true
  | _ => false
  end.

(** Whether the submit step was reached. *)
Definition submitted (t : list Op) : bool := existsb is_broadcast t.

(** ** What both files share *)

(** The request: [req.body.withdrawalId]. *)
Record Request : Type := mkRequest { withdrawalId : JsString }.

(** [rows?.reduce((sum, r) => sum + (r.amount || 0), 0) || 0] *)
Definition total (rows : option (list (option double))) : double :=
  match rows with
  | None => zero
  | Some l => num_or_zero (fold_left (fun sum a => js_add sum (amount_or_zero a)) l zero)
  end.

(** [totalAiMined * 0.55 - totalWithdrawalAmount] *)
Definition availableBalance (aiMined totalWithdrawn : option (list (option double)))
  : double :=
  js_sub (js_mul (total aiMined) ratio) (total totalWithdrawn).

(** [tickData.lastProcessedTick?.tickNumber || 0] *)
Definition currentTick (tickData : TickData) : Z :=
  match lastProcessedTick tickData with
  | Some (Some n) => if Z.eqb n 0 then 0%Z else n
  | _ => 0%Z
  end.

Definition targetTick (tickData : TickData) : Z := (currentTick tickData + 20)%Z.

Definition failed_patch : Patch :=
  {| p_status := "failed"; p_tx_hash := JsUndefined; p_completed_at := None |}.

Definition completed_patch (txHash : JsString) (now : Z) : Patch :=
  {| p_status := "completed"; p_tx_hash := txHash; p_completed_at := Some now |}.

Definition explorerUrl (txHash : JsString) : string :=
  "https://explorer.qubic.org/network/tx/" ++ js_to_string txHash.

(** ** [withdrawal-service.js] *)

Module Service.

(** The commit and the response, from the [!txHash] check on. *)
Definition commit (id : string) (withdrawal : Withdrawal) (startTime : Z)
    (txHash : JsString) : Prog :=
  if negb (truthy txHash) then
    Throw (mkError "No transaction ID returned from broadcast")
  else
    ConsoleLog "Transaction broadcast successful:" ;;
    ConsoleLog "Updating database..." ;;
    let! now := DateNow AtCompletion in
    UpdateWithdrawals AtCommit (completed_patch txHash now) id ;;
    UpdateTransactions txHash (w_user_id withdrawal) ;;
    let! endTime := DateNow AtEnd in
    ConsoleLog "Withdrawal completed" ;;
    Respond 200 (SuccessBody txHash (explorerUrl txHash) (endTime - startTime)) ;;
    Ret.

(** Tick acquisition, build and broadcast. *)
Definition transfer (id : string) (withdrawal : Withdrawal) (startTime : Z) : Prog :=
  ConsoleLog "Fetching current tick..." ;;
  FetchStatus ;;
  let! tickData := StatusJson in
  ConsoleLog "Current tick / Target tick" ;;
  ConsoleLog "Creating and signing transaction..." ;;
  let! publicId := CreateIdPackage in
  let! transaction :=
    BuildTransfer publicId (Number (w_amount withdrawal)) (w_to_address withdrawal)
                  (targetTick tickData) in
  ConsoleLog "Broadcasting transaction to Qubic network..." ;;
  let! ok := FetchBroadcast (base64Transaction transaction) in
  if negb ok then
    let! errorText := BroadcastText in
    ConsoleError "Broadcast failed:" None ;;
    Throw (mkError ("Broadcast failed: " ++ errorText))
  else
    let! txId := BroadcastJson in
    commit id withdrawal startTime (js_or txId (getTxId transaction)).

(** The balance validation. *)
Definition validate (id : string) (withdrawal : Withdrawal) (startTime : Z) : Prog :=
  let! aiMined := SelectAiMined in
  let! totalWithdrawn := SelectCompleted in
  if js_lt (availableBalance aiMined totalWithdrawn) (Number (w_amount withdrawal)) then
    ConsoleLog "Insufficient balance:" ;;
    UpdateWithdrawals AtInsufficient failed_patch id ;;
    Respond 400 (InsufficientBody (availableBalance aiMined totalWithdrawn)) ;;
    Ret
  else transfer id withdrawal startTime.

(** The body of the [try]. *)
Definition try_body (req : Request) (startTime : Z) : Prog :=
  if negb (truthy (withdrawalId req)) then
    Respond 400 (ErrorBody "Missing withdrawalId parameter") ;; Ret
  else
    let id := js_to_string (withdrawalId req) in
    ConsoleLog "Fetching withdrawal:" ;;
    let! r := SelectWithdrawal id in
    match (if error r then None else data r) with
    | None =>
        ConsoleError "Withdrawal not found:" None ;;
        Respond 404 (ErrorBody "Withdrawal not found") ;;
        Ret
    | Some withdrawal =>
        if negb (String.eqb (w_status withdrawal) "pending") then
          ConsoleLog "Withdrawal already processed:" ;;
          Respond 400 (ErrorBody ("Withdrawal already " ++ w_status withdrawal)) ;;
          Ret
        else validate id withdrawal startTime
    end.

(** The compensating update of the [catch] block, in its own [try]. *)
Definition compensate (req : Request) : Prog :=
  try_catch
    (if truthy (withdrawalId req) then
       UpdateWithdrawals AtCatch failed_patch (js_to_string (withdrawalId req)) ;; Ret
     else Ret)
    (fun dbError =>
       ConsoleError "Failed to update withdrawal status:" (Some dbError) ;; Ret).

(** [error.message || 'Unknown error occurred'] *)
Definition reported (e : JsError) : string :=
  if String.eqb (message e) "" then "Unknown error occurred" else message e.

(** The [catch] block. *)
Definition catch_block (req : Request) (e : JsError) : Prog :=
  ConsoleError "Withdrawal processing error:" (Some e) ;;
  seq (compensate req)
      (Respond 500 (ErrorBody (reported e)) ;; Ret).

(** The handler of [POST /process-withdrawal]. *)
Definition processWithdrawal (req : Request) : Prog :=
  let! startTime := DateNow AtStart in
  ConsoleLog "Received withdrawal request:" ;;
  try_catch (try_body req startTime) (catch_block req).

End Service.

(** ** [withdrawal-service (1).js] *)

Module ServiceCopy.

(** The commit: no check of [txHash]. *)
Definition commit (id : string) (withdrawal : Withdrawal) (startTime : Z)
    (txHash : JsString) : Prog :=
  let! now := DateNow AtCompletion in
  UpdateWithdrawals AtCommit (completed_patch txHash now) id ;;
  UpdateTransactions txHash (w_user_id withdrawal) ;;
  let! endTime := DateNow AtEnd in
  ConsoleLog "Completed" ;;
  Respond 200 (SuccessBody txHash (explorerUrl txHash) (endTime - startTime)) ;;
  Ret.

Definition transfer (id : string) (withdrawal : Withdrawal) (startTime : Z) : Prog :=
  FetchStatus ;;
  let! tickData := StatusJson in
  let! publicId := CreatePublicIdFromSeed in
  let! transaction :=
    BuildTransfer publicId (Number (w_amount withdrawal)) (w_to_address withdrawal)
                  (targetTick tickData) in
  let! ok := FetchBroadcast (base64Transaction transaction) in
  if negb ok then Throw (mkError "Broadcast failed")
  else
    let! txId := BroadcastJson in
    commit id withdrawal startTime (js_or txId (getTxId transaction)).

Definition validate (id : string) (withdrawal : Withdrawal) (startTime : Z) : Prog :=
  let! aiMined := SelectAiMined in
  let! totalWithdrawn := SelectCompleted in
  if js_lt (availableBalance aiMined totalWithdrawn) (Number (w_amount withdrawal)) then
    UpdateWithdrawals AtInsufficient failed_patch id ;;
    Respond 400 (InsufficientBody (availableBalance aiMined totalWithdrawn)) ;;
    Ret
  else transfer id withdrawal startTime.

Definition try_body (req : Request) (startTime : Z) : Prog :=
  if negb (truthy (withdrawalId req)) then
    Respond 400 (ErrorBody "Missing withdrawalId") ;; Ret
  else
    let id := js_to_string (withdrawalId req) in
    let! r := SelectWithdrawal id in
    match (if error r then None else data r) with
    | None => Respond 404 (ErrorBody "Withdrawal not found") ;; Ret
    | Some withdrawal =>
        if negb (String.eqb (w_status withdrawal) "pending") then
          Respond 400 (ErrorBody ("Already " ++ w_status withdrawal)) ;; Ret
        else validate id withdrawal startTime
    end.

(** The [catch] block: the compensating update is not guarded. *)
Definition catch_block (req : Request) (e : JsError) : Prog :=
  ConsoleError "Error:" (Some e) ;;
  seq (if truthy (withdrawalId req) then
         UpdateWithdrawals AtCatch failed_patch (js_to_string (withdrawalId req)) ;; Ret
       else Ret)
      (Respond 500 (ErrorBody (message e)) ;; Ret).

Definition processWithdrawal (req : Request) : Prog :=
  let! startTime := DateNow AtStart in
  ConsoleLog "Received withdrawal request:" ;;
  try_catch (try_body req startTime) (catch_block req).

End ServiceCopy.

(** ** Overlapping invocations *)

(** One turn of an invocation: it runs until one awaited call has been
    answered, or to its end. *)
Fixpoint advance (env : Env) (p : Prog) (s : Store) : Prog * Store * list Op :=
  match p with
  | Vis o k =>
      let r := perform env s o in
      if is_await o then (k (fst r), snd r, [o])
      else
        let '(p', s', t) := advance env (k (fst r)) (snd r) in
        (p', s', o :: t)
  | _ => (p, s, [])
  end.

(** An invocation in flight: the answers it will get and what is left of it. *)
Record Invocation : Type := mkInvocation {
  inv_env : Env;
  inv_prog : Prog
}.

Fixpoint set_nth {A : Type} (n : nat) (x : A) (l : list A) : list A :=
  match l, n with
  | [], _ => []
  | _ :: rest, O => x :: rest
  | y :: rest, S m => y :: set_nth m x rest
  end.

(** [interleave sched invs s]: the store is shared, the schedule names the
    invocation that takes each turn; the result is the final store and the
    calls made, each with the index of its invocation. *)
Fixpoint interleave (sched : list nat) (invs : list Invocation) (s : Store)
  : Store * list (nat * Op) :=
  match sched with
  | [] => (s, [])
  | i :: rest =>
      match nth_error invs i with
      | None => interleave rest invs s
      | Some v =>
          let '(p', s', t) := advance (inv_env v) (inv_prog v) s in
          let '(s'', t') :=
            interleave rest (set_nth i {| inv_env := inv_env v; inv_prog := p' |} invs) s' in
          (s'', (map (pair i) t ++ t')%list)
      end
  end.

(** The invocations that reached the submit step, in order. *)
Definition submitters (t : list (nat * Op)) : list nat :=
  map fst (filter (fun e => is_broadcast (snd e)) t).

Definition is_commit (o : Op) : bool :=
  match o with
  | UpdateWithdrawals AtCommit _ _ => true
  | _ => false
  end.

(** The invocations that wrote [completed], in order. *)
Definition committers (t : list (nat * Op)) : list nat :=
  map fst (filter (fun e => is_commit (snd e)) t).

(** Invocations run one after the other on the same request. *)
Fixpoint run_all (handler : Request -> Prog) (envs : list Env) (req : Request)
    (s : Store) : list Run :=
  match envs with
  | [] => []
  | env :: rest =>
      let r := run env (handler req) s in
      r :: run_all handler rest req (final r)
  end.

(** ** Specifications *)

(** The fetch of the handler yields row [w] for the request. *)
Definition loads (env : Env) (s : Store) (req : Request) (w : Withdrawal) : Prop :=
  truthy (withdrawalId req) = true /\
  fst (perform env s (SelectWithdrawal (js_to_string (withdrawalId req))))
  = Ok {| data := Some w; error := false |}.

(** The two balance queries are answered and the handler computes
    [available] from them. *)
Definition computes (env : Env) (s : Store) (available : double) : Prop :=
  exists aiMined totalWithdrawn,
    fst (perform env s SelectAiMined) = Ok aiMined /\
    fst (perform env s SelectCompleted) = Ok totalWithdrawn /\
    available = availableBalance aiMined totalWithdrawn.

(** The status of the row [.single()] finds for [id], if any. *)
Definition lookup_status (id : string) (s : Store) : option string :=
  option_map w_status (data (single (withdrawals_by_id id (withdrawals s)))).

(** The store after [.update(p).eq('id', id)] on [withdrawals]. *)
Definition patched (p : Patch) (id : string) (s : Store) : Store :=
  {| withdrawals := update_withdrawals p id (withdrawals s);
     transactions := transactions s |}.

Definition is_update (o : Op) : bool :=
  match o with
  | UpdateWithdrawals _ _ _ | UpdateTransactions _ _ => true
  | _ => false
  end.

(** The ticks handed to the transaction builder. *)
Fixpoint build_ticks (t : list Op) : list Z :=
  match t with
  | [] => []
  | BuildTransfer _ _ _ tick :: rest => tick :: build_ticks rest
  | _ :: rest => build_ticks rest
  end.

(** A number that is [0] (not [-0]), positive or [Infinity]. *)
Definition nonneg (x : double) : bool :=
  match x with
  | S754_zero false | S754_finite false _ _ | S754_infinity false => true
  | _ => false
  end.

(** An amount that is [null] or a number that is at least [0] (so not
    [NaN]). *)
Definition nonneg_amount (v : option double) : bool :=
  match v with
  | Some x => js_le zero x
  | None => true
  end.


(** Sum, in doubles and in the order of the table, of the amounts of the
    rows selected by [sel]. *)
Definition formula_sum {R : Type} (sel : R -> bool) (amount : R -> option double)
    (rows : list R) : double :=
  fold_left (fun sum r => js_add sum (Number (amount r))) (filter sel rows) zero.


(** The rational an amount stands for. *)
Definition exact_amount (v : option double) : Q := exact (Number v).

(** Exact sum of the amounts of the rows selected by [sel]; a [null] amount
    counts for nothing. *)
Fixpoint sum_amounts {R : Type} (sel : R -> bool) (amount : R -> option double)
    (rows : list R) : Q :=
  match rows with
  | [] => 0%Q
  | r :: rest =>
      if sel r then (exact_amount (amount r) + sum_amounts sel amount rest)%Q
      else sum_amounts sel amount rest
  end.

(** The balance of the ledger in exact arithmetic: the accrual entries
    times the payout share, minus the completed withdrawals. *)
Definition spec_available (s : Store) : Q :=
  (sum_amounts (fun t => String.eqb (t_type t) "ai_mining") t_amount (transactions s)
   * (55 # 100)
   - sum_amounts (fun w => String.eqb (w_status w) "completed") w_amount (withdrawals s))%Q.

(** Every completed withdrawal carries a transaction identifier. *)
Definition tx_recorded (s : Store) : Prop :=
  forall w, In w (withdrawals s) -> w_status w = "completed" -> w_tx_hash w <> None.

(** The calls of the [catch] block of [withdrawal-service.js], latest first. *)
Definition catch_calls (env : Env) (req : Request) (e : JsError) : list Op :=
  (Respond 500 (ErrorBody (Service.reported e))
   :: match update_withdrawals_fault env AtCatch with
      | Throws dbError =>
          [ConsoleError "Failed to update withdrawal status:" (Some dbError)]
      | _ => []
      end)
  ++ [UpdateWithdrawals AtCatch failed_patch (js_to_string (withdrawalId req));
      ConsoleError "Withdrawal processing error:" (Some e)].

(** The calls of the [catch] block of [withdrawal-service (1).js]: when the
    compensating update raises, nothing follows it. *)
Definition copy_catch_calls (env : Env) (req : Request) (e : JsError) : list Op :=
  match update_withdrawals_fault env AtCatch with
  | Throws _ => []
  | _ => [Respond 500 (ErrorBody (message e))]
  end
  ++ [UpdateWithdrawals AtCatch failed_patch (js_to_string (withdrawalId req));
      ConsoleError "Error:" (Some e)].

(** The store after the compensating update. *)
Definition compensated (env : Env) (req : Request) (s : Store) : Store :=
  match update_withdrawals_fault env AtCatch with
  | NoFault => patched failed_patch (js_to_string (withdrawalId req)) s
  | _ => s
  end.

(** The transaction builder was called and raised [e], or the identity
    derivation before it did. *)
Definition build_raises (env : Env) (t : list Op) (e : JsError) : Prop :=
  (In CreateIdPackage t /\ createIdPackage env = Exn e) \/
  exists source amount to tick,
    In (BuildTransfer source amount to tick) t /\
    build_transfer env source amount to tick = Exn e.

(** The transfer was submitted and the gateway answered with a status that
    is not a success. *)
Definition submit_refused (env : Env) (t : list Op) : Prop :=
  exists tx, In (FetchBroadcast tx) t /\ fetch_broadcast env tx = Ok false.

(** What the handler raises then. *)
Definition broadcast_error (env : Env) : JsError :=
  match broadcast_text env with
  | Ok errorText => mkError ("Broadcast failed: " ++ errorText)
  | Exn e => e
  end.

(** The gateway accepts the transfer and [txHash] is its identifier. *)
Definition broadcast_accepted (env : Env) (transaction : Built) (txHash : JsString) : Prop :=
  fetch_broadcast env (base64Transaction transaction) = Ok true /\
  exists txId,
    broadcast_json env = Ok txId /\
    js_or txId (getTxId transaction) = txHash /\
    truthy txHash = true.

(** The status response carries no current tick. *)
Definition no_current_tick (tickData : TickData) : Prop :=
  lastProcessedTick tickData = None \/
  lastProcessedTick tickData = Some None \/
  lastProcessedTick tickData = Some (Some 0%Z).

(** No row that the fetch can load for [id] is pending. *)
Definition settled (id : string) (s : Store) : Prop :=
  forall w,
    single (withdrawals_by_id id (withdrawals s)) = {| data := Some w; error := false |} ->
    w_status w <> "pending".

(** ** Sample data *)

Module Sample.

Definition w1 : Withdrawal :=
  {| w_id := "w1"; w_user_id := "u1"; w_to_address := "DEST";
     w_amount := Some (of_Z 500000); w_status := "pending";
     w_tx_hash := None; w_completed_at := None |}.

Definition mined : Transaction :=
  {| t_user_id := "u0"; t_type := "ai_mining"; t_amount := Some (of_Z 2000000);
     t_status := "completed"; t_tx_hash := None; t_created_at := 1%Z |}.

Definition intent : Transaction :=
  {| t_user_id := "u1"; t_type := "withdrawal"; t_amount := Some (of_Z 500000);
     t_status := "pending"; t_tx_hash := None; t_created_at := 2%Z |}.

Definition store : Store :=
  {| withdrawals := [w1]; transactions := [mined; intent] |}.

(** A store whose treasury holds 55 units only. *)
Definition poor : Store :=
  {| withdrawals := [w1];
     transactions := [ {| t_user_id := "u0"; t_type := "ai_mining";
                          t_amount := Some (of_Z 100); t_status := "completed";
                          t_tx_hash := None; t_created_at := 1 |} ] |}.

Definition req : Request := {| withdrawalId := JsStr "w1" |}.

(** Every collaborator answers; the network is at tick 1000 and accepts
    the transfer under identifier [TX1]. *)
Definition env : Env :=
  {| clock := fun c => match c with AtStart => 10%Z | AtCompletion => 20%Z | AtEnd => 30%Z end;
     select_withdrawal_fault := NoFault;
     select_ai_mining_fault := NoFault;
     select_completed_fault := NoFault;
     update_withdrawals_fault := fun _ => NoFault;
     update_transactions_fault := NoFault;
     fetch_status := Ok tt;
     status_json := Ok {| lastProcessedTick := Some (Some 1000%Z) |};
     createIdPackage := Ok (JsStr "TREASURY");
     createPublicIdFromSeed := Ok (JsStr "TREASURY");
     build_transfer := fun _ _ _ _ =>
       Ok {| base64Transaction := "AAAA"; getTxId := JsStr "TX1" |};
     fetch_broadcast := fun _ => Ok true;
     broadcast_text := Ok "";
     broadcast_json := Ok (JsStr "TX1") |}.

Definition with_status_json (r : Outcome TickData) (e : Env) : Env :=
  {| clock := clock e;
     select_withdrawal_fault := select_withdrawal_fault e;
     select_ai_mining_fault := select_ai_mining_fault e;
     select_completed_fault := select_completed_fault e;
     update_withdrawals_fault := update_withdrawals_fault e;
     update_transactions_fault := update_transactions_fault e;
     fetch_status := fetch_status e;
     status_json := r;
     createIdPackage := createIdPackage e;
     createPublicIdFromSeed := createPublicIdFromSeed e;
     build_transfer := build_transfer e;
     fetch_broadcast := fetch_broadcast e;
     broadcast_text := broadcast_text e;
     broadcast_json := broadcast_json e |}.

Definition with_build (b : JsString -> double -> string -> Z -> Outcome Built)
    (e : Env) : Env :=
  {| clock := clock e;
     select_withdrawal_fault := select_withdrawal_fault e;
     select_ai_mining_fault := select_ai_mining_fault e;
     select_completed_fault := select_completed_fault e;
     update_withdrawals_fault := update_withdrawals_fault e;
     update_transactions_fault := update_transactions_fault e;
     fetch_status := fetch_status e;
     status_json := status_json e;
     createIdPackage := createIdPackage e;
     createPublicIdFromSeed := createPublicIdFromSeed e;
     build_transfer := b;
     fetch_broadcast := fetch_broadcast e;
     broadcast_text := broadcast_text e;
     broadcast_json := broadcast_json e |}.

Definition with_broadcast (ok : Outcome bool) (text : Outcome string)
    (json : Outcome JsString) (e : Env) : Env :=
  {| clock := clock e;
     select_withdrawal_fault := select_withdrawal_fault e;
     select_ai_mining_fault := select_ai_mining_fault e;
     select_completed_fault := select_completed_fault e;
     update_withdrawals_fault := update_withdrawals_fault e;
     update_transactions_fault := update_transactions_fault e;
     fetch_status := fetch_status e;
     status_json := status_json e;
     createIdPackage := createIdPackage e;
     createPublicIdFromSeed := createPublicIdFromSeed e;
     build_transfer := build_transfer e;
     fetch_broadcast := fun _ => ok;
     broadcast_text := text;
     broadcast_json := json |}.

Definition with_update_fault (f : Site -> Fault) (e : Env) : Env :=
  {| clock := clock e;
     select_withdrawal_fault := select_withdrawal_fault e;
     select_ai_mining_fault := select_ai_mining_fault e;
     select_completed_fault := select_completed_fault e;
     update_withdrawals_fault := f;
     update_transactions_fault := update_transactions_fault e;
     fetch_status := fetch_status e;
     status_json := status_json e;
     createIdPackage := createIdPackage e;
     createPublicIdFromSeed := createPublicIdFromSeed e;
     build_transfer := build_transfer e;
     fetch_broadcast := fetch_broadcast e;
     broadcast_text := broadcast_text e;
     broadcast_json := broadcast_json e |}.

(** The withdrawal after a payout, and a store that holds it. *)
Definition w1_paid : Withdrawal :=
  {| w_id := "w1"; w_user_id := "u1"; w_to_address := "DEST";
     w_amount := Some (of_Z 500000); w_status := "completed";
     w_tx_hash := Some "TX0"; w_completed_at := Some 5%Z |}.

Definition paid : Store :=
  {| withdrawals := [w1_paid]; transactions := [mined; intent] |}.

(** A request for a withdrawal that does not exist. *)
Definition unknown : Request := {| withdrawalId := JsStr "w9" |}.

(** The gateway answers the broadcast with an error status. *)
Definition refusing : Env := with_broadcast (Ok false) (Ok "busy") (Ok JsNull) env.

(** The transaction builder raises. *)
Definition unbuildable : Env :=
  with_build (fun _ _ _ _ => Exn (mkError "signing failed")) env.

(** The builder raises, and so does the compensating update. *)
Definition store_lost : Env :=
  with_update_fault
    (fun site => match site with
                 | AtCatch => Throws (mkError "connection lost")
                 | _ => NoFault
                 end)
    unbuildable.

(** The broadcast is accepted, but neither the response nor the
    transaction gives an identifier. *)
Definition silent : Env :=
  with_build (fun _ _ _ _ => Ok {| base64Transaction := "AAAA"; getTxId := JsUndefined |})
             (with_broadcast (Ok true) (Ok "") (Ok JsUndefined) env).

(** The status response has no [lastProcessedTick]. *)
Definition tickless : Env :=
  with_status_json (Ok {| lastProcessedTick := None |}) env.

(** A later invocation: the network is one tick further and the transfer
    it builds has another identifier. *)
Definition later : Env :=
  with_status_json (Ok {| lastProcessedTick := Some (Some 1001%Z) |})
    (with_build (fun _ _ _ _ => Ok {| base64Transaction := "BBBB"; getTxId := JsStr "TX2" |})
       (with_broadcast (Ok true) (Ok "") (Ok (JsStr "TX2")) env)).

(** Two invocations: both fetch the withdrawal, then the first runs to its
    end, then the second. *)
Definition race : list nat :=
  ([0; 1] ++ repeat 0 10 ++ repeat 1 10)%list%nat.

Definition twice : list Invocation :=
  [ {| inv_env := env; inv_prog := Service.processWithdrawal req |};
    {| inv_env := later; inv_prog := Service.processWithdrawal req |} ].

End Sample.

(** ** Further specifications *)

Definition is_respond (o : Op) : bool :=
  match o with
  | Respond _ _ => true
  | _ => false
  end.

(** The responses sent, and the broadcasts made, in order. *)
Definition responses (t : list Op) : list Op := filter is_respond t.

Definition broadcasts (t : list Op) : list Op := filter is_broadcast t.

(** What a request for a withdrawal consists of, and what a ledger entry
    consists of, apart from the columns the handler writes. *)
Definition request_fields (w : Withdrawal) : string * string * string * option double :=
  (w_id w, w_user_id w, w_to_address w, w_amount w).

Definition entry_fields (t : Transaction) : string * string * option double * Z :=
  (t_user_id t, t_type t, t_amount t, t_created_at t).

(** The stores that updates of the handler lead to: [withdrawals] patched
    on [id] with a status other than [pending], or the second commit
    update on [transactions]. *)
Inductive reach (id : string) (s : Store) : Store -> Prop :=
| reach_refl : reach id s s
| reach_patch p s' :
    reach id s s' -> p_status p <> "pending" -> reach id s (patched p id s')
| reach_tx txHash u s' :
    reach id s s' ->
    reach id s {| withdrawals := withdrawals s';
                  transactions := update_transactions txHash u (transactions s') |}.

(** The sum of the completed withdrawals, and of the accrual entries. *)
Definition completed_sum (rows : list Withdrawal) : Q :=
  sum_amounts (fun w => String.eqb (w_status w) "completed") w_amount rows.

Definition accrued (rows : list Transaction) : Q :=
  sum_amounts (fun t => String.eqb (t_type t) "ai_mining") t_amount rows.

(** Whenever a transfer is built and the broadcast answered, an identifier
    is at hand. *)
Definition identified (env : Env) : Prop :=
  forall source amount to tick transaction txId,
    build_transfer env source amount to tick = Ok transaction ->
    broadcast_json env = Ok txId ->
    truthy (js_or txId (getTxId transaction)) = true.

(** What a call on [id] keeps of the store: no row is added or removed, the
    requests are as they were, the rows of other withdrawals are untouched,
    no row becomes [pending], and the ledger entries keep their user, type,
    amount and date, the accrual entries being untouched. *)
Definition kept (id : string) (s s' : Store) : Prop :=
  map request_fields (withdrawals s') = map request_fields (withdrawals s) /\
  filter (fun w => negb (String.eqb (w_id w) id)) (withdrawals s')
  = filter (fun w => negb (String.eqb (w_id w) id)) (withdrawals s) /\
  (forall w, In w (withdrawals s') -> w_status w = "pending" -> In w (withdrawals s)) /\
  map entry_fields (transactions s') = map entry_fields (transactions s) /\
  select_ai_mining (transactions s') = select_ai_mining (transactions s).

(** ** Further sample data *)

Module Cases.

(** A request without [withdrawalId]. *)
Definition anonymous : Request := {| withdrawalId := JsUndefined |}.

(** The accrual query is answered with an error. *)
Definition accrual_error : Env :=
  {| clock := clock Sample.env;
     select_withdrawal_fault := NoFault;
     select_ai_mining_fault := ReturnsError;
     select_completed_fault := NoFault;
     update_withdrawals_fault := fun _ => NoFault;
     update_transactions_fault := NoFault;
     fetch_status := fetch_status Sample.env;
     status_json := status_json Sample.env;
     createIdPackage := createIdPackage Sample.env;
     createPublicIdFromSeed := createPublicIdFromSeed Sample.env;
     build_transfer := build_transfer Sample.env;
     fetch_broadcast := fetch_broadcast Sample.env;
     broadcast_text := broadcast_text Sample.env;
     broadcast_json := broadcast_json Sample.env |}.

(** The update of the ledger entry raises. *)
Definition ledger_lost : Env :=
  {| clock := clock Sample.env;
     select_withdrawal_fault := NoFault;
     select_ai_mining_fault := NoFault;
     select_completed_fault := NoFault;
     update_withdrawals_fault := fun _ => NoFault;
     update_transactions_fault := Throws (mkError "ledger lost");
     fetch_status := fetch_status Sample.env;
     status_json := status_json Sample.env;
     createIdPackage := createIdPackage Sample.env;
     createPublicIdFromSeed := createPublicIdFromSeed Sample.env;
     build_transfer := build_transfer Sample.env;
     fetch_broadcast := fetch_broadcast Sample.env;
     broadcast_text := broadcast_text Sample.env;
     broadcast_json := broadcast_json Sample.env |}.

End Cases.

(** ** What the [catch] blocks do *)

Lemma run_catch_block env req e s done :
  truthy (withdrawalId req) = true ->
  run_from env (Service.catch_block req e) s done
  = {| completion := Returned;
       final := compensated env req s;
       trace := rev (catch_calls env req e ++ done) |}.
Proof.
  intros Hid. unfold Service.catch_block, Service.compensate, catch_calls,
    compensated, patched, call, write.
  rewrite Hid. cbn [run_from try_catch seq perform fst snd].
  unfold write.
  destruct (update_withdrawals_fault env AtCatch); reflexivity.
Qed.

Lemma run_copy_catch_block env req e s done :
  truthy (withdrawalId req) = true ->
  run_from env (ServiceCopy.catch_block req e) s done
  = {| completion := match update_withdrawals_fault env AtCatch with
                     | Throws dbError => Rejected dbError
                     | _ => Returned
                     end;
       final := compensated env req s;
       trace := rev (copy_catch_calls env req e ++ done) |}.
Proof.
  intros Hid. unfold ServiceCopy.catch_block, copy_catch_calls,
    compensated, patched, call, write.
  rewrite Hid. cbn [run_from try_catch seq perform fst snd].
  unfold write.
  destruct (update_withdrawals_fault env AtCatch); reflexivity.
Qed.

(** ** Symbolic execution of a handler *)

(** The stages of the handlers are unfolded one at a time, when the
    execution reaches them; a [catch] block is run by the lemmas above. *)
Ltac unfold_stage :=
  first [ progress unfold Service.processWithdrawal, ServiceCopy.processWithdrawal
        | progress unfold Service.try_body, ServiceCopy.try_body
        | rewrite run_catch_block by assumption
        | rewrite run_copy_catch_block by assumption
        | progress unfold Service.validate, ServiceCopy.validate
        | progress unfold Service.transfer, ServiceCopy.transfer
        | progress unfold Service.commit, ServiceCopy.commit ].

Ltac simp :=
  unfold run, call, write;
  cbn [run_from try_catch seq perform read fst snd negb error data single].

Ltac head t := lazymatch t with ?f _ => head f | _ => t end.

Ltac is_value t := let h := head t in first [ is_constructor h | is_var h ].

Ltac use_hyps :=
  repeat match goal with
         | H : ?l = _ |- context [?l] =>
             tryif is_value l then fail else rewrite H
         end.

Ltac split_match :=
  match goal with
  | |- context [match ?x with _ => _ end] =>
      lazymatch x with
      | context [match _ with _ => _ end] => fail
      | negb ?b => destruct b eqn:?
      | _ => tryif is_constructor ltac:(head x) then fail else destruct x eqn:?
      end
  end.

(** Runs the handler of the goal along every path the hypotheses allow. *)
Ltac exec :=
  unfold run;
  repeat (lazymatch goal with |- context [run_from] => idtac end;
          first [ progress simp | progress use_hyps
                | split_match; try congruence | unfold_stage ]).

(** [exec_run] does so for a goal that mentions one run several times; what
    is to be shown of the run is set aside meanwhile. *)
Ltac exec_run :=
  match goal with
  | |- context [run ?env ?p ?s] =>
      let r := fresh "r" in
      let Hr := fresh "Hr" in
      let post := fresh "post" in
      remember (run env p s) as r eqn:Hr; symmetry in Hr;
      match goal with |- ?G => set (post := G) end;
      revert Hr; exec; intros Hr; subst post; subst r;
      cbn [trace final completion rev app]
  end.

(** Splits on how the compensating update of a [catch] block went. *)
Ltac split_catch :=
  unfold catch_calls, copy_catch_calls, compensated;
  repeat match goal with
         | |- context [match update_withdrawals_fault ?env AtCatch with _ => _ end] =>
             destruct (update_withdrawals_fault env AtCatch) eqn:?
         end;
  cbn [rev app].

Ltac in_cases H :=
  cbn [In] in H;
  repeat match type of H with _ \/ _ => destruct H as [H|H] end;
  try discriminate H; try contradiction.

(** ** The store operations *)

Lemma store_eta s : {| withdrawals := withdrawals s; transactions := transactions s |} = s.
Proof. now destruct s. Qed.

Lemma by_id_update p id rows :
  withdrawals_by_id id (update_withdrawals p id rows)
  = map (apply_patch p) (withdrawals_by_id id rows).
Proof.
  unfold withdrawals_by_id, update_withdrawals.
  induction rows as [|w rows IH]; cbn; [reflexivity|].
  destruct (String.eqb (w_id w) id) eqn:E; cbn; rewrite ?E, IH; reflexivity.
Qed.

Lemma update_absent p id rows :
  withdrawals_by_id id rows = [] -> update_withdrawals p id rows = rows.
Proof.
  unfold withdrawals_by_id, update_withdrawals.
  induction rows as [|w rows IH]; cbn; [reflexivity|].
  destruct (String.eqb (w_id w) id); [discriminate|].
  intros H. now rewrite IH.
Qed.

Lemma patched_absent p id s :
  withdrawals_by_id id (withdrawals s) = [] -> patched p id s = s.
Proof.
  intros H. unfold patched. rewrite update_absent by assumption. apply store_eta.
Qed.

Lemma single_inv rows w :
  single rows = {| data := Some w; error := false |} -> rows = [w].
Proof.
  destruct rows as [|x [|y rest]]; cbn; intros H; try discriminate.
  now injection H as ->.
Qed.

Lemma lookup_patched p id s w :
  single (withdrawals_by_id id (withdrawals s)) = {| data := Some w; error := false |} ->
  lookup_status id (patched p id s) = Some (p_status p).
Proof.
  intros H. apply single_inv in H.
  unfold lookup_status, patched. cbn [withdrawals].
  rewrite by_id_update, H. reflexivity.
Qed.

Lemma single_patched p id s w :
  single (withdrawals_by_id id (withdrawals s)) = {| data := Some w; error := false |} ->
  single (withdrawals_by_id id (withdrawals (patched p id s)))
  = {| data := Some (apply_patch p w); error := false |}.
Proof.
  intros H. apply single_inv in H.
  unfold patched. cbn [withdrawals]. rewrite by_id_update, H. reflexivity.
Qed.

Lemma loads_inv env s req w :
  loads env s req w ->
  truthy (withdrawalId req) = true /\
  select_withdrawal_fault env = NoFault /\
  single (withdrawals_by_id (js_to_string (withdrawalId req)) (withdrawals s))
  = {| data := Some w; error := false |}.
Proof.
  intros [Hid H]. cbn in H. unfold read in H.
  destruct (select_withdrawal_fault env); try discriminate.
  injection H as H. auto.
Qed.

Ltac invert_loads H :=
  apply loads_inv in H;
  let Hid := fresh "Hid" in
  let Hf := fresh "Hfetch" in
  let Hs := fresh "Hsingle" in
  destruct H as (Hid & Hf & Hs).

Ltac invert_computes H :=
  let a := fresh "aiMined" in
  let c := fresh "totalWithdrawn" in
  let Ha := fresh "Ha" in
  let Hc := fresh "Hc" in
  destruct H as (a & c & Ha & Hc & ->);
  cbn [perform fst] in Ha, Hc.

(** ** Running a [try]/[catch] *)

(** The calls made so far only prefix the trace. *)
Lemma run_from_done env p : forall s done,
  run_from env p s done
  = {| completion := completion (run env p s);
       final := final (run env p s);
       trace := rev done ++ trace (run env p s) |}.
Proof.
  unfold run. induction p as [| e | o k IH]; intros s done; cbn [run_from].
  - cbn. now rewrite app_nil_r.
  - cbn. now rewrite app_nil_r.
  - destruct (perform env s o) as [a s']. rewrite (IH a s' (o :: done)), (IH a s' [o]).
    cbn [completion final trace rev app]. now rewrite <- app_assoc.
Qed.

(** A [try]/[catch] runs its body, and its handler when the body raises. *)
Lemma run_from_try_catch env h p : forall s done,
  run_from env (try_catch p h) s done
  = match completion (run_from env p s done) with
    | Returned => run_from env p s done
    | Rejected e =>
        run_from env (h e) (final (run_from env p s done))
                 (rev (trace (run_from env p s done)))
    end.
Proof.
  induction p as [| e | o k IH]; intros s done; cbn [try_catch run_from].
  - reflexivity.
  - cbn. now rewrite rev_involutive.
  - destruct (perform env s o) as [a s']. apply IH.
Qed.

(** The response is the last one sent. *)
Lemma response_app l l' r :
  response l' = Some r -> response (l ++ l') = Some r.
Proof.
  intros H. induction l as [|o l IH]; cbn; [assumption|]. now rewrite IH.
Qed.

(** ** The guards *)

(** C2. For every withdrawal record whose status is not [pending],
    processWithdrawal answers 400 "Withdrawal already <status>" and changes
    nothing: the store after the call is the store before it, and the
    handler issued no update at all. *)
Theorem already_processed_no_mutation env req s w :
  loads env s req w ->
  w_status w <> "pending" ->
  let r := run env (Service.processWithdrawal req) s in
  response (trace r) = Some (400%Z, ErrorBody ("Withdrawal already " ++ w_status w)) /\
  final r = s /\
  existsb is_update (trace r) = false.
Proof.
  intros H Hst r. subst r. invert_loads H.
  apply String.eqb_neq in Hst.
  exec_run. repeat split.
Qed.

(** C8. For every withdrawal id without a record in the store, no row of any
    table is created or changed by processWithdrawal; unless the fetch itself
    raises, the call fails with 404 "Withdrawal not found" and issues no
    update. *)
Theorem not_found_no_mutation env req s :
  truthy (withdrawalId req) = true ->
  withdrawals_by_id (js_to_string (withdrawalId req)) (withdrawals s) = [] ->
  let r := run env (Service.processWithdrawal req) s in
  final r = s /\
  ((forall e, select_withdrawal_fault env <> Throws e) ->
   response (trace r) = Some (404%Z, ErrorBody "Withdrawal not found") /\
   existsb is_update (trace r) = false).
Proof.
  intros Hid Hnone r. subst r.
  destruct (select_withdrawal_fault env) eqn:Hfetch.
  all: exec_run; split_catch.
  all: split; [ first [ reflexivity | apply (patched_absent failed_patch); assumption ]
              | intros Hno ].
  all: try (split; reflexivity).
  all: exfalso; eapply Hno; reflexivity.
Qed.

(** ** The balance *)

(** [ratio] lies within half a unit in the last place (2^-54) of 55/100:
    it is the double that the literal [0.55] denotes. *)
Lemma ratio_nearest :
  (55 # 100 < exact ratio)%Q /\ (exact ratio - (55 # 100) < Qpower 2 (-54))%Q.
Proof. split; vm_compute; reflexivity. Qed.

(** Rounding a mantissa that is not negative gives no [NaN] and no negative
    number. *)
Lemma shr_1_nonneg mrs : (0 <= shr_m mrs)%Z -> (0 <= shr_m (shr_1 mrs))%Z.
Proof.
  destruct mrs as [m r s]. destruct m as [|p|p]; cbn; intros H; try lia.
  destruct p; cbn; lia.
Qed.

Lemma iter_shr_1_nonneg p :
  forall mrs, (0 <= shr_m mrs)%Z -> (0 <= shr_m (iter_pos shr_1 p mrs))%Z.
Proof.
  induction p as [p IH|p IH|]; intros mrs H; cbn.
  - apply IH, IH, shr_1_nonneg, H.
  - apply IH, IH, H.
  - apply shr_1_nonneg, H.
Qed.

Lemma shr_fexp_nonneg m e l :
  (0 <= m)%Z -> (0 <= shr_m (fst (shr_fexp 53 1024 m e l)))%Z.
Proof.
  intros H. unfold shr_fexp, shr.
  assert (H0 : (0 <= shr_m (shr_record_of_loc m l))%Z)
    by (destruct l as [|[]]; exact H).
  destruct (fexp 53 1024 (Zdigits2 m + e) - e)%Z; cbn [fst]; try exact H0.
  apply iter_shr_1_nonneg, H0.
Qed.

Lemma round_nearest_even_nonneg m l :
  (0 <= m)%Z -> (0 <= round_nearest_even m l)%Z.
Proof.
  intros H. destruct l as [|[]]; cbn; try lia. destruct (Z.even m); lia.
Qed.

Lemma binary_round_aux_nonneg m e l :
  (0 <= m)%Z -> nonneg (binary_round_aux 53 1024 false m e l) = true.
Proof.
  intros H. unfold binary_round_aux.
  pose proof (shr_fexp_nonneg m e l H) as H1.
  destruct (shr_fexp 53 1024 m e l) as [mrs' e'].
  cbn [fst] in H1.
  pose proof (shr_fexp_nonneg _ e' loc_Exact
                (round_nearest_even_nonneg _ (loc_of_shr_record mrs') H1)) as H2.
  destruct (shr_fexp 53 1024 _ e' loc_Exact) as [mrs'' e''].
  cbn [fst] in H2.
  destruct (shr_m mrs''); [reflexivity| |lia].
  destruct (Z.leb e'' (1024 - 53)); reflexivity.
Qed.

(** The sum of two numbers that are not negative is not negative (and not
    [NaN]). *)
Lemma js_add_nonneg a b :
  nonneg a = true -> nonneg b = true -> nonneg (js_add a b) = true.
Proof.
  destruct a as [[]|[]| |[] ma ea]; try discriminate;
    destruct b as [[]|[]| |[] mb eb]; try discriminate; intros _ _;
    try reflexivity.
  unfold js_add, SFadd, cond_Zopp, binary_normalize, binary_round.
  cbn [Z.add].
  destruct (shl_align _ _ _) as [mz ez].
  apply binary_round_aux_nonneg. lia.
Qed.

Lemma amount_or_zero_nonneg v :
  nonneg_amount v = true -> nonneg (amount_or_zero v) = true.
Proof.
  destruct v as [x|]; [|reflexivity].
  destruct x as [[]|[]| |[] m e]; cbn; intros H; try discriminate H; reflexivity.
Qed.

(** On such numbers [v || 0] adds what [v] adds. *)
Lemma js_add_amount acc v :
  nonneg acc = true -> nonneg_amount v = true ->
  js_add acc (amount_or_zero v) = js_add acc (Number v).
Proof.
  destruct v as [x|]; [|reflexivity].
  destruct x as [[]|[]| |[] m e]; cbn; intros Ha H; try discriminate H;
    try reflexivity.
  destruct acc as [[]|[]| |[] ma ea]; try discriminate Ha; reflexivity.
Qed.

Lemma num_or_zero_nonneg x : nonneg x = true -> num_or_zero x = x.
Proof. destruct x as [[]|[]| |[] m e]; try discriminate; reflexivity. Qed.

(** The [reduce] of the handler adds up the amounts of the selected rows. *)
Lemma reduce_formula {R : Type} (sel : R -> bool) (amount : R -> option double) rows :
  Forall (fun r => nonneg_amount (amount r) = true) rows ->
  forall acc, nonneg acc = true ->
  fold_left (fun sum a => js_add sum (amount_or_zero a)) (map amount (filter sel rows)) acc
  = fold_left (fun sum r => js_add sum (Number (amount r))) (filter sel rows) acc /\
  nonneg (fold_left (fun sum r => js_add sum (Number (amount r))) (filter sel rows) acc)
  = true.
Proof.
  induction 1 as [|r rows Hr _ IH]; intros acc Hacc; cbn [filter].
  - split; [reflexivity | exact Hacc].
  - destruct (sel r); [|apply IH, Hacc].
    cbn [map fold_left]. rewrite (js_add_amount _ _ Hacc Hr).
    apply IH. rewrite <- (js_add_amount _ _ Hacc Hr).
    apply js_add_nonneg; [exact Hacc | apply amount_or_zero_nonneg, Hr].
Qed.

Lemma total_formula {R : Type} (sel : R -> bool) (amount : R -> option double) rows :
  Forall (fun r => nonneg_amount (amount r) = true) rows ->
  total (Some (map amount (filter sel rows))) = formula_sum sel amount rows /\
  nonneg (formula_sum sel amount rows) = true.
Proof.
  intros H. destruct (reduce_formula sel amount rows H zero eq_refl) as [E N].
  unfold total, formula_sum. rewrite E. split; [apply num_or_zero_nonneg, N | exact N].
Qed.



(** C5. For every pending withdrawal whose amount exceeds the balance the
    handler computes, processWithdrawal never reaches the broadcast; when
    the store applies the update it answers 400 with the insufficient-balance
    body and the record's status becomes [failed]. *)
Theorem insufficient_balance_fails env req s w available :
  loads env s req w ->
  w_status w = "pending" ->
  computes env s available ->
  js_lt available (Number (w_amount w)) = true ->
  let id := js_to_string (withdrawalId req) in
  let r := run env (Service.processWithdrawal req) s in
  submitted (trace r) = false /\
  (update_withdrawals_fault env AtInsufficient = NoFault ->
   response (trace r) = Some (400%Z, InsufficientBody available) /\
   final r = patched failed_patch id s /\
   lookup_status id (final r) = Some "failed").
Proof.
  intros H Hst Hc Hlt id r. subst id r. invert_loads H. invert_computes Hc.
  apply String.eqb_eq in Hst.
  exec_run; split_catch.
  all: split; [reflexivity|]; intros Hup; try discriminate.
  repeat split. exact (lookup_patched failed_patch _ _ _ Hsingle).
Qed.

(** ** The target tick *)

Lemma currentTick_present tickData n :
  lastProcessedTick tickData = Some (Some n) -> currentTick tickData = n.
Proof.
  unfold currentTick. intros ->. destruct (Z.eqb_spec n 0); congruence.
Qed.

Lemma currentTick_missing tickData :
  no_current_tick tickData -> currentTick tickData = 0%Z.
Proof.
  unfold currentTick. intros [-> | [-> | ->]]; reflexivity.
Qed.

(** C9. For every attempt that ends with the success response, the status
    of the network was read during the attempt and the one tick handed to
    the transaction builder is the current tick of that response plus 20. *)
Theorem target_tick_is_current_plus_20 env req s body :
  let r := run env (Service.processWithdrawal req) s in
  response (trace r) = Some (200%Z, body) ->
  exists tickData,
    status_json env = Ok tickData /\
    In StatusJson (trace r) /\
    build_ticks (trace r) = [(currentTick tickData + 20)%Z] /\
    (forall n, lastProcessedTick tickData = Some (Some n) ->
               build_ticks (trace r) = [(n + 20)%Z]).
Proof.
  intros r. subst r.
  destruct (truthy (withdrawalId req)) eqn:Hid.
  all: exec_run; split_catch; cbn [response]; try discriminate.
  all: intros _; eexists; split; [reflexivity|]; cbn [build_ticks In]; unfold targetTick.
  all: split; [tauto|]; split; [reflexivity|].
  all: intros n Hn; now rewrite (currentTick_present _ _ Hn).
Qed.

(** C10. When the status response carries no current tick
    ([lastProcessedTick] missing, [tickNumber] missing or 0), the handler does
    not fail: the current tick is taken as 0, the target tick is 20, the
    transfer is built and broadcast against it, and on an accepted broadcast
    the success response is sent and the withdrawal becomes [completed]; in
    both files (each with its own identity derivation, here yielding the
    same identity). *)
Theorem missing_tick_targets_20 env req s w available tickData source transaction
    txHash :
  loads env s req w ->
  w_status w = "pending" ->
  computes env s available ->
  js_lt available (Number (w_amount w)) = false ->
  fetch_status env = Ok tt ->
  status_json env = Ok tickData ->
  no_current_tick tickData ->
  createIdPackage env = Ok source ->
  createPublicIdFromSeed env = Ok source ->
  build_transfer env source (Number (w_amount w)) (w_to_address w) 20 = Ok transaction ->
  broadcast_accepted env transaction txHash ->
  update_withdrawals_fault env AtCommit = NoFault ->
  (forall e, update_transactions_fault env <> Throws e) ->
  let id := js_to_string (withdrawalId req) in
  let r := run env (Service.processWithdrawal req) s in
  let r' := run env (ServiceCopy.processWithdrawal req) s in
  targetTick tickData = 20%Z /\
  (build_ticks (trace r) = [20%Z] /\
   submitted (trace r) = true /\
   response (trace r)
   = Some (200%Z, SuccessBody txHash (explorerUrl txHash) (clock env AtEnd - clock env AtStart)) /\
   lookup_status id (final r) = Some "completed") /\
  (build_ticks (trace r') = [20%Z] /\
   submitted (trace r') = true /\
   response (trace r')
   = Some (200%Z, SuccessBody txHash (explorerUrl txHash) (clock env AtEnd - clock env AtStart)) /\
   lookup_status id (final r') = Some "completed").
Proof.
  intros H Hst Hc Hlt Hfs Hsj Hno Hid1 Hid2 Hbuild (Hok & txId & Hjson & Htx & Htruthy)
    Hcommit Htxs id r r'. subst id r r'.
  invert_loads H. invert_computes Hc.
  assert (Htarget : targetTick tickData = 20%Z).
  { unfold targetTick. now rewrite (currentTick_missing _ Hno). }
  pose proof (lookup_patched (completed_patch txHash (clock env AtCompletion)) _ _ _ Hsingle)
    as Hdone.
  apply String.eqb_eq in Hst.
  split; [assumption|].
  split.
  - exec_run.
    all: try (exfalso; eapply Htxs; eassumption).
    all: repeat split; exact Hdone.
  - exec_run.
    all: try (exfalso; eapply Htxs; eassumption).
    all: repeat split; exact Hdone.
Qed.

(** ** Failures of the transfer *)

(** C1, as stated, fails: the gateway refuses the broadcast of a pending
    withdrawal (or the builder raises), the [catch] block marks the record
    [failed], and a second call on the same id is turned down. *)
Lemma refused_submit_leaves_failed :
  let r := run Sample.refusing (Service.processWithdrawal Sample.req) Sample.store in
  let r' := run Sample.unbuildable (Service.processWithdrawal Sample.req) Sample.store in
  loads Sample.refusing Sample.store Sample.req Sample.w1 /\
  w_status Sample.w1 = "pending" /\
  submit_refused Sample.refusing (trace r) /\
  response (trace r) = Some (500%Z, ErrorBody "Broadcast failed: busy") /\
  lookup_status "w1" (final r) = Some "failed" /\
  lookup_status "w1" (final r) <> Some "pending" /\
  response (trace (run Sample.env (Service.processWithdrawal Sample.req) (final r)))
  = Some (400%Z, ErrorBody "Withdrawal already failed") /\
  build_raises Sample.unbuildable (trace r') (mkError "signing failed") /\
  lookup_status "w1" (final r') = Some "failed".
Proof.
  cbv zeta. repeat split; try reflexivity.
  - exists "AAAA". split; [|reflexivity]. vm_compute. tauto.
  - vm_compute. discriminate.
  - right. exists (JsStr "TREASURY"), (of_Z 500000), "DEST", 1020%Z.
    split; [|reflexivity]. vm_compute. tauto.
Qed.

(** C1, amended. For every withdrawal loaded with status [pending], if the
    transaction builder (or the identity derivation before it) raises, or
    the broadcast is answered with an error status, processWithdrawal
    answers 500 with the message of that error and its [catch] block issues
    the compensating update: the record's status becomes [failed] when the
    store applies it, and stays [pending] only when it does not; once the
    update is applied, any later call on the same id is answered 400
    "Withdrawal already failed", submits nothing, issues no update and
    leaves the store as it is. *)
Theorem transfer_failure_marks_failed env req s w e :
  loads env s req w ->
  w_status w = "pending" ->
  let id := js_to_string (withdrawalId req) in
  let r := run env (Service.processWithdrawal req) s in
  build_raises env (trace r) e \/ (submit_refused env (trace r) /\ e = broadcast_error env) ->
  response (trace r) = Some (500%Z, ErrorBody (Service.reported e)) /\
  In (UpdateWithdrawals AtCatch failed_patch id) (trace r) /\
  final r = compensated env req s /\
  lookup_status id (final r)
  = Some (match update_withdrawals_fault env AtCatch with
          | NoFault => "failed"
          | _ => "pending"
          end) /\
  (update_withdrawals_fault env AtCatch = NoFault ->
   forall env1,
     select_withdrawal_fault env1 = NoFault ->
     let r1 := run env1 (Service.processWithdrawal req) (final r) in
     response (trace r1) = Some (400%Z, ErrorBody "Withdrawal already failed") /\
     final r1 = final r /\
     submitted (trace r1) = false /\
     existsb is_update (trace r1) = false).
Proof.
  intros H Hst id r. subst id r. invert_loads H.
  assert (Hlook : lookup_status (js_to_string (withdrawalId req)) s = Some "pending").
  { unfold lookup_status. rewrite Hsingle. cbn. now rewrite Hst. }
  pose proof (lookup_patched failed_patch _ _ _ Hsingle) as Hfailed.
  pose proof (single_patched failed_patch _ _ _ Hsingle) as Hagain.
  intros Hfail.
  match goal with
  | |- ?A /\ ?B /\ ?C /\ ?D /\ _ => assert (Hmain : A /\ B /\ C /\ D)
  end.
  { clear Hagain. revert Hfail. apply String.eqb_eq in Hst.
    exec_run.
    all: unfold broadcast_error.
    all: intros [[(Hin & Hb) | (so & am & t & k & Hin & Hb)] | ((tx & Hin & Hb) & ->)].
    all: revert Hin; split_catch; intros Hin; in_cases Hin.
    all: try (injection Hin; clear Hin; intros; subst).
    all: try congruence.
    all: match goal with
         | H1 : ?x = Exn _, H2 : ?x = Exn _ |- _ => rewrite H1 in H2; injection H2 as ->
         | H1 : ?x = Ok _, H2 : ?x = Ok _ |- _ => rewrite H1 in H2; injection H2 as ->
         | _ => idtac
         end.
    all: use_hyps; repeat split; try assumption; cbn [In]; tauto. }
  destruct Hmain as (H1 & H2 & H3 & H4).
  repeat (split; [assumption|]).
  intros Hup env1 Hfetch1 r1. subst r1. rewrite H3. clear H1 H2 H3 H4 Hfail.
  unfold compensated. rewrite Hup.
  assert (Hst' : String.eqb (w_status (apply_patch failed_patch w)) "pending" = false)
    by reflexivity.
  assert (Hmsg : ("Withdrawal already " ++ w_status (apply_patch failed_patch w))%string
                 = "Withdrawal already failed") by reflexivity.
  generalize dependent (apply_patch failed_patch w).
  generalize dependent (patched failed_patch (js_to_string (withdrawalId req)) s).
  intros s1 _ w1 Hagain Hst' Hmsg.
  exec_run. repeat split.
Qed.

(** In [withdrawal-service.js], whatever the [try] raises: the compensating
    update is issued, its own exception is logged, and the response carries
    the error that was raised first. *)
Lemma original_error_reported env req s e :
  truthy (withdrawalId req) = true ->
  completion (run env (Service.try_body req (clock env AtStart)) s) = Rejected e ->
  let r := run env (Service.processWithdrawal req) s in
  completion r = Returned /\
  response (trace r) = Some (500%Z, ErrorBody (Service.reported e)) /\
  In (UpdateWithdrawals AtCatch failed_patch (js_to_string (withdrawalId req))) (trace r) /\
  (forall dbError,
      update_withdrawals_fault env AtCatch = Throws dbError ->
      In (ConsoleError "Failed to update withdrawal status:" (Some dbError)) (trace r)).
Proof.
  intros Hid Hraise r. subst r.
  unfold run at 1 2 3 4, Service.processWithdrawal, call.
  cbn [run_from perform fst snd].
  rewrite run_from_try_catch.
  rewrite (run_from_done env (Service.try_body _ _)). cbn [completion final trace].
  rewrite Hraise. rewrite run_catch_block by assumption.
  cbn [completion final trace].
  rewrite rev_app_distr, rev_involutive.
  set (before := (rev _ ++ _)%list).
  split; [reflexivity|].
  unfold catch_calls.
  destruct (update_withdrawals_fault env AtCatch) eqn:Hf.
  all: cbn [app rev].
  all: split; [apply response_app; reflexivity|].
  all: split; [apply in_or_app; right; cbn; tauto|].
  all: intros dbError Hdb; try discriminate Hdb.
  injection Hdb as <-. apply in_or_app; right; cbn; tauto.
Qed.

(** C7, in [withdrawal-service (1).js]: the builder raises and the
    compensating update raises in turn; the handler's promise rejects with
    the second exception, which is not logged, and no response is sent,
    while [withdrawal-service.js] answers with the builder's error. *)
Theorem copy_compensation_failure_hides_error :
  let r := run Sample.store_lost (ServiceCopy.processWithdrawal Sample.req) Sample.store in
  let r' := run Sample.store_lost (Service.processWithdrawal Sample.req) Sample.store in
  build_raises Sample.store_lost (trace r) (mkError "signing failed") /\
  completion r = Rejected (mkError "connection lost") /\
  response (trace r) = None /\
  ~ In (ConsoleError "Failed to update withdrawal status:"
                     (Some (mkError "connection lost"))) (trace r) /\
  completion r' = Returned /\
  response (trace r') = Some (500%Z, ErrorBody "signing failed") /\
  In (ConsoleError "Failed to update withdrawal status:"
                   (Some (mkError "connection lost"))) (trace r').
Proof.
  cbv zeta. repeat split; try reflexivity.
  - right. exists (JsStr "TREASURY"), (of_Z 500000), "DEST", 1020%Z.
    split; [|reflexivity]. vm_compute. tauto.
  - vm_compute. intros H. repeat destruct H as [H|H]; try discriminate H. exact H.
  - vm_compute. tauto.
Qed.

(** ** The transaction identifier of a completed withdrawal *)

Lemma tx_recorded_update p id rows :
  (p_status p = "completed" -> truthy (p_tx_hash p) = true) ->
  (forall w, In w rows -> w_status w = "completed" -> w_tx_hash w <> None) ->
  forall w, In w (update_withdrawals p id rows) ->
            w_status w = "completed" -> w_tx_hash w <> None.
Proof.
  intros Hp Hrows w Hin Hw. unfold update_withdrawals in Hin.
  apply in_map_iff in Hin. destruct Hin as (w0 & <- & Hin).
  destruct (String.eqb (w_id w0) id); [|now apply Hrows].
  cbn in *. specialize (Hp Hw). destruct (p_tx_hash p); cbn in *; congruence.
Qed.

Lemma tx_recorded_patched p id s :
  (p_status p = "completed" -> truthy (p_tx_hash p) = true) ->
  tx_recorded s -> tx_recorded (patched p id s).
Proof. intros Hp Hs. exact (tx_recorded_update p id _ Hp Hs). Qed.

Lemma tx_recorded_compensated env req s :
  tx_recorded s -> tx_recorded (compensated env req s).
Proof.
  intros H. unfold compensated.
  destruct (update_withdrawals_fault env AtCatch); try assumption.
  apply tx_recorded_patched; [discriminate | assumption].
Qed.

(** In [withdrawal-service.js] a withdrawal is never left [completed]
    without a transaction identifier. *)
Lemma completed_has_tx_hash env req s :
  tx_recorded s -> tx_recorded (final (run env (Service.processWithdrawal req) s)).
Proof.
  intros Hs.
  destruct (truthy (withdrawalId req)) eqn:Hid.
  all: exec_run.
  all: try apply tx_recorded_compensated.
  all: try (apply tx_recorded_patched;
            [ intros Hp; cbn in Hp; first [ discriminate Hp | cbn; assumption ] | ]).
  all: assumption.
Qed.

(** C6, in [withdrawal-service (1).js]: the broadcast is accepted but gives
    no identifier; the record is written [completed] with a null
    [tx_hash], while [withdrawal-service.js] raises and marks it [failed]. *)
Theorem copy_completes_without_tx_hash :
  let r := run Sample.silent (ServiceCopy.processWithdrawal Sample.req) Sample.store in
  let r' := run Sample.silent (Service.processWithdrawal Sample.req) Sample.store in
  tx_recorded Sample.store /\
  map (fun w => (w_status w, w_tx_hash w)) (withdrawals (final r)) = [("completed", None)] /\
  ~ tx_recorded (final r) /\
  map (fun w => (w_status w, w_tx_hash w)) (withdrawals (final r')) = [("failed", None)] /\
  response (trace r')
  = Some (500%Z, ErrorBody "No transaction ID returned from broadcast").
Proof.
  cbv zeta. repeat split; try reflexivity.
  - intros w [<- | []]. discriminate.
  - intros H. refine (H _ (or_introl eq_refl) eq_refl eq_refl).
Qed.

(** ** Invocations on the same withdrawal *)

Lemma settled_update p id rows txs :
  p_status p <> "pending" ->
  settled id {| withdrawals := update_withdrawals p id rows; transactions := txs |}.
Proof.
  intros Hp w Hw. cbn [withdrawals] in Hw. rewrite by_id_update in Hw.
  apply single_inv in Hw.
  destruct (withdrawals_by_id id rows) as [|x [|y rest]]; cbn in Hw; try discriminate.
  injection Hw as <-. exact Hp.
Qed.

Lemma settled_compensated env req s :
  settled (js_to_string (withdrawalId req)) s ->
  settled (js_to_string (withdrawalId req)) (compensated env req s).
Proof.
  intros H. unfold compensated.
  destruct (update_withdrawals_fault env AtCatch); try assumption.
  now apply settled_update.
Qed.

(** On a settled withdrawal no invocation gets past the status guard. *)
Lemma settled_stays env req s :
  settled (js_to_string (withdrawalId req)) s ->
  let r := run env (Service.processWithdrawal req) s in
  submitted (trace r) = false /\
  existsb is_commit (trace r) = false /\
  settled (js_to_string (withdrawalId req)) (final r).
Proof.
  intros Hs r. subst r.
  destruct (truthy (withdrawalId req)) eqn:Hid;
    [destruct (select_withdrawal_fault env) eqn:Hfetch;
     destruct (single (withdrawals_by_id (js_to_string (withdrawalId req)) (withdrawals s)))
       as [[w|] [|]] eqn:Hsingle;
     try (pose proof (proj2 (String.eqb_neq _ _) (Hs w Hsingle)) as Hst) |].
  all: exec_run.
  all: try (split; [|split]; 
            [ split_catch; reflexivity | split_catch; reflexivity
            | first [ assumption | now apply settled_compensated ] ]).
Qed.

(** Once an invocation has submitted, and the store took its updates, the
    withdrawal is settled. *)
Lemma submitted_settles env req s :
  (forall site, update_withdrawals_fault env site = NoFault) ->
  let r := run env (Service.processWithdrawal req) s in
  submitted (trace r) = true ->
  settled (js_to_string (withdrawalId req)) (final r).
Proof.
  intros Hup r. subst r.
  pose proof (Hup AtInsufficient) as H1. pose proof (Hup AtCommit) as H2.
  pose proof (Hup AtCatch) as H3.
  destruct (truthy (withdrawalId req)) eqn:Hid.
  all: exec_run.
  all: unfold catch_calls, compensated; rewrite ?H3; cbn [rev app].
  all: cbn [submitted existsb is_broadcast orb]; try discriminate.
  all: intros _; apply settled_update; discriminate.
Qed.

(** C3, as stated, fails: two invocations on the same pending id that
    overlap at the first [await] both pass the status guard, both broadcast
    and both write [completed]. *)
Lemma overlapping_invocations_both_submit :
  let r := interleave Sample.race Sample.twice Sample.store in
  lookup_status "w1" Sample.store = Some "pending" /\
  filter (fun e => is_broadcast (snd e)) (snd r)
  = [(0%nat, FetchBroadcast "AAAA"); (1%nat, FetchBroadcast "BBBB")] /\
  submitters (snd r) = [0; 1]%nat /\
  committers (snd r) = [0; 1]%nat /\
  map (fun w => (w_status w, w_tx_hash w)) (withdrawals (fst r))
  = [("completed", Some "TX2")].
Proof. vm_compute. repeat split. Qed.

(** C3, amended. For invocations of processWithdrawal on the same id that
    run one after the other: once one of them has reached the broadcast, and
    the store applied its status updates, no later invocation reaches the
    broadcast or writes [completed]. Invocations that overlap are not
    serialised. *)
Theorem sequential_single_flight env0 envs req s :
  (forall site, update_withdrawals_fault env0 site = NoFault) ->
  let first := run env0 (Service.processWithdrawal req) s in
  submitted (trace first) = true ->
  Forall (fun r => submitted (trace r) = false /\ existsb is_commit (trace r) = false)
         (run_all Service.processWithdrawal envs req (final first)).
Proof.
  intros Hup first Hsub.
  pose proof (submitted_settles env0 req s Hup Hsub) as Hs. fold first in Hs.
  generalize dependent (final first). clear.
  induction envs as [|env envs IH]; intros s1 Hs; cbn [run_all]; constructor.
  - destruct (settled_stays env req s1 Hs) as (? & ? & _). now split.
  - apply IH. now destruct (settled_stays env req s1 Hs) as (_ & _ & ?).
Qed.

(** ** Instances on the sample data *)

(** A call on the withdrawal that was already paid out. *)
Lemma already_processed_no_mutation_witness :
  let r := run Sample.env (Service.processWithdrawal Sample.req) Sample.paid in
  response (trace r)
  = Some (400%Z, ErrorBody ("Withdrawal already " ++ w_status Sample.w1_paid)) /\
  final r = Sample.paid /\
  existsb is_update (trace r) = false.
Proof.
  apply (already_processed_no_mutation Sample.env Sample.req Sample.paid Sample.w1_paid).
  - split; reflexivity.
  - discriminate.
Defined.

(** A call for a withdrawal that does not exist. *)
Lemma not_found_no_mutation_witness :
  let r := run Sample.env (Service.processWithdrawal Sample.unknown) Sample.store in
  final r = Sample.store /\
  response (trace r) = Some (404%Z, ErrorBody "Withdrawal not found") /\
  existsb is_update (trace r) = false.
Proof.
  destruct (not_found_no_mutation Sample.env Sample.unknown Sample.store
              eq_refl eq_refl) as [Hfinal Hresponse].
  split; [exact Hfinal|].
  apply Hresponse. intros e. discriminate.
Defined.


(** 500,000 requested from a treasury that holds 55. *)
Lemma insufficient_balance_fails_witness :
  let available :=
    availableBalance (Some (select_ai_mining (transactions Sample.poor)))
                     (Some (select_completed (withdrawals Sample.poor))) in
  let r := run Sample.env (Service.processWithdrawal Sample.req) Sample.poor in
  submitted (trace r) = false /\
  response (trace r) = Some (400%Z, InsufficientBody available) /\
  final r = patched failed_patch "w1" Sample.poor /\
  lookup_status "w1" (final r) = Some "failed".
Proof.
  intros available r.
  destruct (insufficient_balance_fails Sample.env Sample.req Sample.poor Sample.w1 available)
    as [Hsub Hrest].
  - split; reflexivity.
  - reflexivity.
  - exists (Some (select_ai_mining (transactions Sample.poor))),
           (Some (select_completed (withdrawals Sample.poor))).
    repeat split.
  - reflexivity.
  - split; [exact Hsub|]. apply Hrest. reflexivity.
Defined.

(** The sample payout targets tick 1020. *)
Lemma target_tick_is_current_plus_20_witness :
  exists tickData,
    status_json Sample.env = Ok tickData /\
    In StatusJson (trace (run Sample.env (Service.processWithdrawal Sample.req) Sample.store)) /\
    build_ticks (trace (run Sample.env (Service.processWithdrawal Sample.req) Sample.store))
    = [(currentTick tickData + 20)%Z] /\
    (forall n, lastProcessedTick tickData = Some (Some n) ->
               build_ticks
                 (trace (run Sample.env (Service.processWithdrawal Sample.req) Sample.store))
               = [(n + 20)%Z]).
Proof.
  apply (target_tick_is_current_plus_20 Sample.env Sample.req Sample.store
           (SuccessBody (JsStr "TX1") "https://explorer.qubic.org/network/tx/TX1" 20%Z)).
  reflexivity.
Defined.

(** The sample payout when the network reports no tick. *)
Lemma missing_tick_targets_20_witness :
  let r := run Sample.tickless (Service.processWithdrawal Sample.req) Sample.store in
  let r' := run Sample.tickless (ServiceCopy.processWithdrawal Sample.req) Sample.store in
  build_ticks (trace r) = [20%Z] /\
  lookup_status "w1" (final r) = Some "completed" /\
  build_ticks (trace r') = [20%Z] /\
  lookup_status "w1" (final r') = Some "completed".
Proof.
  intros r r'.
  destruct (missing_tick_targets_20 Sample.tickless Sample.req Sample.store Sample.w1
              (availableBalance (Some (select_ai_mining (transactions Sample.store)))
                                (Some (select_completed (withdrawals Sample.store))))
              {| lastProcessedTick := None |}
              (JsStr "TREASURY")
              {| base64Transaction := "AAAA"; getTxId := JsStr "TX1" |}
              (JsStr "TX1"))
    as (_ & (Hticks & _ & _ & Hdone) & (Hticks' & _ & _ & Hdone')).
  - split; reflexivity.
  - reflexivity.
  - exists (Some (select_ai_mining (transactions Sample.store))),
           (Some (select_completed (withdrawals Sample.store))).
    repeat split.
  - reflexivity.
  - reflexivity.
  - reflexivity.
  - left. reflexivity.
  - reflexivity.
  - reflexivity.
  - reflexivity.
  - split; [reflexivity|]. exists (JsStr "TX1"). repeat split.
  - reflexivity.
  - intros e. discriminate.
  - repeat split; assumption.
Defined.

(** The refused broadcast of the sample payout, and the call that follows
    it. *)
Lemma transfer_failure_marks_failed_witness :
  let r := run Sample.refusing (Service.processWithdrawal Sample.req) Sample.store in
  let r1 := run Sample.env (Service.processWithdrawal Sample.req) (final r) in
  response (trace r)
  = Some (500%Z, ErrorBody (Service.reported (broadcast_error Sample.refusing))) /\
  In (UpdateWithdrawals AtCatch failed_patch "w1") (trace r) /\
  lookup_status "w1" (final r) = Some "failed" /\
  response (trace r1) = Some (400%Z, ErrorBody "Withdrawal already failed") /\
  submitted (trace r1) = false.
Proof.
  intros r r1.
  destruct (transfer_failure_marks_failed Sample.refusing Sample.req Sample.store
              Sample.w1 (broadcast_error Sample.refusing))
    as (H1 & H2 & _ & H4 & H5).
  - split; reflexivity.
  - reflexivity.
  - right. split; [|reflexivity].
    exists "AAAA". split; [|reflexivity]. vm_compute. tauto.
  - destruct (H5 eq_refl Sample.env eq_refl) as (H6 & _ & H7 & _).
    repeat split; assumption.
Defined.

(** Three calls in a row on the sample payout: the first submits, the two
    that follow do not. *)
Lemma sequential_single_flight_witness :
  Forall (fun r => submitted (trace r) = false /\ existsb is_commit (trace r) = false)
         (run_all Service.processWithdrawal [Sample.env; Sample.env] Sample.req
                  (final (run Sample.env (Service.processWithdrawal Sample.req) Sample.store))).
Proof.
  apply (sequential_single_flight Sample.env [Sample.env; Sample.env] Sample.req Sample.store).
  - intros site. reflexivity.
  - reflexivity.
Defined.

(** ** A request without an identifier *)

(** X1. A request whose [withdrawalId] is missing or empty is answered 400
    in both files (each with its own message) before any call to the store,
    the gateway or the builder is made; the store is left as it was. *)
Theorem missing_id_rejected env req s :
  truthy (withdrawalId req) = false ->
  let r := run env (Service.processWithdrawal req) s in
  let r' := run env (ServiceCopy.processWithdrawal req) s in
  (response (trace r) = Some (400%Z, ErrorBody "Missing withdrawalId parameter") /\
   final r = s /\ existsb is_await (trace r) = false) /\
  (response (trace r') = Some (400%Z, ErrorBody "Missing withdrawalId") /\
   final r' = s /\ existsb is_await (trace r') = false).
Proof.
  intros Hid r r'. subst r r'. split; exec_run; repeat split.
Qed.

(** ** Every call is answered *)

(** X2. In [withdrawal-service.js] every call of the handler returns and
    sends exactly one response, whatever the request, the store and the
    answers of the collaborators. *)
Theorem always_one_response env req s :
  let r := run env (Service.processWithdrawal req) s in
  completion r = Returned /\ List.length (responses (trace r)) = 1%nat.
Proof.
  intros r. subst r.
  destruct (truthy (withdrawalId req)) eqn:Hid.
  all: exec_run; split_catch; split; reflexivity.
Qed.

(** X3. In [withdrawal-service (1).js] a call either returns having sent
    exactly one response, or its promise rejects without any response; the
    latter happens only with the exception the compensating update of the
    [catch] block raised. *)
Theorem copy_one_response_or_rejection env req s :
  let r := run env (ServiceCopy.processWithdrawal req) s in
  (completion r = Returned /\ List.length (responses (trace r)) = 1%nat) \/
  (exists dbError,
      update_withdrawals_fault env AtCatch = Throws dbError /\
      completion r = Rejected dbError /\
      responses (trace r) = []).
Proof.
  intros r. subst r.
  destruct (truthy (withdrawalId req)) eqn:Hid.
  all: exec_run; split_catch.
  all: first [ left; split; reflexivity
             | right; eexists; split; [reflexivity | split; reflexivity] ].
Qed.

(** ** What a broadcast and a success response imply *)

Lemma single_eta r w :
  error r = false -> data r = Some w -> r = {| data := Some w; error := false |}.
Proof. destruct r; cbn; now intros -> ->. Qed.

Lemma loads_intro env s req w :
  truthy (withdrawalId req) = true ->
  select_withdrawal_fault env = NoFault ->
  error (single (withdrawals_by_id (js_to_string (withdrawalId req)) (withdrawals s))) = false ->
  data (single (withdrawals_by_id (js_to_string (withdrawalId req)) (withdrawals s))) = Some w ->
  loads env s req w.
Proof.
  intros Hid Hf He Hd. split; [assumption|].
  cbn [perform fst]. rewrite Hf. cbn [read]. f_equal. now apply single_eta.
Qed.

Lemma computes_intro env s a c :
  read (select_ai_mining_fault env) (Some (select_ai_mining (transactions s))) None = Ok a ->
  read (select_completed_fault env) (Some (select_completed (withdrawals s))) None = Ok c ->
  computes env s (availableBalance a c).
Proof. intros Ha Hc. exists a, c. cbn [perform fst]. auto. Qed.

(** X4. Whenever the handler reaches the broadcast, the withdrawal was
    loaded with status [pending], the comparison of the balance it computed
    with the requested amount ([availableBalance < Number(amount)], on
    doubles) was false, the identity was derived, the transfer was built for
    that identity and that row's amount and address at the target tick, and
    the one broadcast of the call carries exactly the package the builder
    returned. *)
Theorem broadcast_is_guarded env req s :
  let r := run env (Service.processWithdrawal req) s in
  submitted (trace r) = true ->
  exists w available tickData source transaction,
    loads env s req w /\
    w_status w = "pending" /\
    computes env s available /\
    js_lt available (Number (w_amount w)) = false /\
    status_json env = Ok tickData /\
    createIdPackage env = Ok source /\
    build_transfer env source (Number (w_amount w)) (w_to_address w) (targetTick tickData)
    = Ok transaction /\
    broadcasts (trace r) = [FetchBroadcast (base64Transaction transaction)].
Proof.
  intros r. subst r.
  destruct (truthy (withdrawalId req)) eqn:Hid;
    [destruct (select_withdrawal_fault env) eqn:Hfetch|].
  all: exec_run; split_catch.
  all: cbn [submitted existsb is_broadcast orb]; try discriminate.
  all: intros _; eexists _, _, _, _, _.
  all: split; [eapply loads_intro; eassumption|].
  all: split; [now apply String.eqb_eq|].
  all: split; [eapply computes_intro; eassumption|].
  all: split; [assumption|].
  all: split; [reflexivity|].
  all: split; [reflexivity|].
  all: split; [eassumption|reflexivity].
Qed.

(** X5. Whenever the success response is sent, its identifier is non-empty,
    its explorer URL is the fixed prefix followed by that identifier, one
    broadcast was made, and both commit updates were issued with that same
    identifier for the pending row that was loaded; when the store applies
    the first, the rows of that id are the old ones patched to [completed]. *)
Theorem success_means_committed env req s txHash url elapsed :
  let id := js_to_string (withdrawalId req) in
  let r := run env (Service.processWithdrawal req) s in
  response (trace r) = Some (200%Z, SuccessBody txHash url elapsed) ->
  truthy txHash = true /\
  url = explorerUrl txHash /\
  List.length (broadcasts (trace r)) = 1%nat /\
  exists w,
    loads env s req w /\
    w_status w = "pending" /\
    In (UpdateWithdrawals AtCommit (completed_patch txHash (clock env AtCompletion)) id)
       (trace r) /\
    In (UpdateTransactions txHash (w_user_id w)) (trace r) /\
    (update_withdrawals_fault env AtCommit = NoFault ->
     withdrawals (final r)
     = update_withdrawals (completed_patch txHash (clock env AtCompletion)) id (withdrawals s)).
Proof.
  intros id r. subst id r.
  destruct (truthy (withdrawalId req)) eqn:Hid;
    [destruct (select_withdrawal_fault env) eqn:Hfetch|].
  all: exec_run; split_catch.
  all: cbn [response]; try discriminate.
  all: intros Hresp; injection Hresp as <- <- <-.
  all: split; [assumption|].
  all: split; [reflexivity|].
  all: split; [reflexivity|].
  all: eexists; split; [eapply loads_intro; eassumption|].
  all: split; [now apply String.eqb_eq|].
  all: split; [cbn; tauto|].
  all: split; [cbn; tauto|].
  all: intros Hc; try discriminate Hc; reflexivity.
Qed.

(** X6. The identifier of the success response is the [txId] of the
    gateway's answer when that is a non-empty string, and otherwise what
    [getTxId()] gives for the transaction that was built. *)
Theorem identifier_prefers_gateway env req s txHash url elapsed :
  let r := run env (Service.processWithdrawal req) s in
  response (trace r) = Some (200%Z, SuccessBody txHash url elapsed) ->
  exists source amount to tick transaction txId,
    In (BuildTransfer source amount to tick) (trace r) /\
    build_transfer env source amount to tick = Ok transaction /\
    broadcast_json env = Ok txId /\
    txHash = (if truthy txId then txId else getTxId transaction).
Proof.
  intros r. subst r.
  destruct (truthy (withdrawalId req)) eqn:Hid.
  all: exec_run; split_catch.
  all: cbn [response]; try discriminate.
  all: intros Hresp; injection Hresp as <- _ _.
  all: eexists _, _, _, _, _, _.
  all: split; [cbn; tauto|].
  all: split; [eassumption|].
  all: split; reflexivity.
Qed.

(** ** The second commit update *)

Lemma open_not_accrual u t :
  open_withdrawal_tx u t = true -> String.eqb (t_type t) "ai_mining" = false.
Proof.
  unfold open_withdrawal_tx. intros H.
  apply andb_true_iff in H. destruct H as [H _].
  apply andb_true_iff in H. destruct H as [_ H].
  apply String.eqb_eq in H. now rewrite H.
Qed.

Lemma update_first_accruals u m txHash rows :
  filter (fun t => String.eqb (t_type t) "ai_mining") (update_first u m txHash rows)
  = filter (fun t => String.eqb (t_type t) "ai_mining") rows.
Proof.
  induction rows as [|x rows IH]; cbn [update_first]; [reflexivity|].
  destruct (open_withdrawal_tx u x && Z.eqb (t_created_at x) m) eqn:E.
  - apply andb_true_iff in E. destruct E as [E _].
    cbn [filter complete_transaction t_type]. now rewrite (open_not_accrual u x E).
  - cbn [filter]. now rewrite IH.
Qed.

Lemma update_transactions_accruals txHash u rows :
  filter (fun t => String.eqb (t_type t) "ai_mining") (update_transactions txHash u rows)
  = filter (fun t => String.eqb (t_type t) "ai_mining") rows.
Proof.
  unfold update_transactions. destruct (latest_created u rows); [|reflexivity].
  apply update_first_accruals.
Qed.

Lemma update_transactions_fields txHash u rows :
  map entry_fields (update_transactions txHash u rows) = map entry_fields rows.
Proof.
  unfold update_transactions. destruct (latest_created u rows) as [m|]; [|reflexivity].
  induction rows as [|x rows IH]; cbn [update_first]; [reflexivity|].
  destruct (open_withdrawal_tx u x && Z.eqb (t_created_at x) m); cbn [map]; [reflexivity|].
  now rewrite IH.
Qed.

Lemma sum_amounts_filter {R : Type} (sel : R -> bool) (amount : R -> option double) rows :
  sum_amounts sel amount rows = sum_amounts (fun _ => true) amount (filter sel rows).
Proof.
  induction rows as [|x rows IH]; cbn; [reflexivity|].
  destruct (sel x); cbn; now rewrite IH.
Qed.

Lemma update_transactions_accrued txHash u rows :
  accrued (update_transactions txHash u rows) = accrued rows.
Proof.
  unfold accrued. rewrite sum_amounts_filter, update_transactions_accruals.
  symmetry. apply sum_amounts_filter.
Qed.

(** ** What a call leaves alone *)

Lemma update_withdrawals_fields p id rows :
  map request_fields (update_withdrawals p id rows) = map request_fields rows.
Proof.
  unfold update_withdrawals. rewrite map_map. apply map_ext.
  intros w. now destruct (String.eqb (w_id w) id).
Qed.

Lemma update_withdrawals_others p id rows :
  filter (fun w => negb (String.eqb (w_id w) id)) (update_withdrawals p id rows)
  = filter (fun w => negb (String.eqb (w_id w) id)) rows.
Proof.
  unfold update_withdrawals.
  induction rows as [|w rows IH]; cbn; [reflexivity|].
  destruct (String.eqb (w_id w) id) eqn:E; cbn; rewrite E; cbn; now rewrite IH.
Qed.

Lemma update_withdrawals_pending p id rows w :
  p_status p <> "pending" ->
  In w (update_withdrawals p id rows) -> w_status w = "pending" -> In w rows.
Proof.
  intros Hp Hin Hw. unfold update_withdrawals in Hin.
  apply in_map_iff in Hin. destruct Hin as (w0 & <- & Hin).
  destruct (String.eqb (w_id w0) id); [|assumption].
  cbn in Hw. contradiction.
Qed.

Lemma reach_frame id s s' : reach id s s' -> kept id s s'.
Proof.
  unfold kept.
  induction 1 as [| p s' Hr (IH1 & IH2 & IH3 & IH4 & IH5) Hp
                  | txHash u s' Hr (IH1 & IH2 & IH3 & IH4 & IH5)].
  - repeat split; auto.
  - cbn [patched withdrawals transactions].
    rewrite update_withdrawals_fields, update_withdrawals_others.
    repeat split; auto.
    intros w Hin Hw. apply IH3; [|assumption].
    eapply update_withdrawals_pending; eassumption.
  - cbn [withdrawals transactions]. rewrite update_transactions_fields.
    unfold select_ai_mining in *. rewrite update_transactions_accruals.
    repeat split; auto.
Qed.

Lemma reach_compensated env req s s' :
  reach (js_to_string (withdrawalId req)) s s' ->
  reach (js_to_string (withdrawalId req)) s (compensated env req s').
Proof.
  intros H. unfold compensated.
  destruct (update_withdrawals_fault env AtCatch); try assumption.
  apply reach_patch; [assumption | discriminate].
Qed.

Ltac reach_steps :=
  repeat first
    [ apply reach_refl
    | apply reach_compensated
    | apply reach_patch; [ | cbn; discriminate ]
    | apply reach_tx ].

Lemma call_reaches env req s :
  reach (js_to_string (withdrawalId req)) s
        (final (run env (Service.processWithdrawal req) s)).
Proof.
  destruct (truthy (withdrawalId req)) eqn:Hid.
  all: exec_run; reach_steps.
Qed.

Lemma copy_call_reaches env req s :
  reach (js_to_string (withdrawalId req)) s
        (final (run env (ServiceCopy.processWithdrawal req) s)).
Proof.
  destruct (truthy (withdrawalId req)) eqn:Hid.
  all: exec_run; reach_steps.
Qed.

(** X8. In both files a call neither adds nor removes a row, never changes
    the id, user, address or amount of a withdrawal, leaves the rows of other
    ids untouched, never makes a row [pending], and leaves user, type, amount
    and date of every ledger entry, and the accrual entries altogether, as
    they were. *)
Theorem call_preserves_requests env req s :
  let id := js_to_string (withdrawalId req) in
  kept id s (final (run env (Service.processWithdrawal req) s)) /\
  kept id s (final (run env (ServiceCopy.processWithdrawal req) s)).
Proof.
  intros id. split; apply reach_frame.
  - apply call_reaches.
  - apply copy_call_reaches.
Qed.

(** ** The balance across a call *)

Lemma completed_sum_update p id rows :
  (completed_sum (update_withdrawals p id rows) + completed_sum (withdrawals_by_id id rows)
   == completed_sum rows
      + completed_sum (map (apply_patch p) (withdrawals_by_id id rows)))%Q.
Proof.
  unfold completed_sum, update_withdrawals, withdrawals_by_id.
  induction rows as [|w rows IH]; cbn [map filter sum_amounts]; [reflexivity|].
  destruct (String.eqb (w_id w) id) eqn:E; cbn [map filter sum_amounts].
  - cbn [apply_patch w_status w_amount].
    destruct (String.eqb (p_status p) "completed"), (String.eqb (w_status w) "completed");
      lra.
  - destruct (String.eqb (w_status w) "completed"); lra.
Qed.

Lemma completed_sum_update_pending p id rows w :
  withdrawals_by_id id rows = [w] ->
  w_status w = "pending" ->
  (completed_sum (update_withdrawals p id rows)
   == completed_sum rows
      + (if String.eqb (p_status p) "completed" then exact_amount (w_amount w) else 0))%Q.
Proof.
  intros Hw Hst. pose proof (completed_sum_update p id rows) as H.
  rewrite Hw in H. unfold completed_sum in *. cbn [map sum_amounts] in H.
  cbn [apply_patch w_status w_amount] in H. rewrite Hst in H.
  change (String.eqb "pending" "completed") with false in H.
  destruct (String.eqb (p_status p) "completed"); lra.
Qed.

(** The balance of a store whose [withdrawals] were patched on [id]. *)
Lemma spec_available_patched p id W T w :
  withdrawals_by_id id W = [w] ->
  w_status w = "pending" ->
  (spec_available {| withdrawals := update_withdrawals p id W; transactions := T |}
   == spec_available {| withdrawals := W; transactions := T |}
      - (if String.eqb (p_status p) "completed" then exact_amount (w_amount w) else 0))%Q.
Proof.
  intros Hw Hst. unfold spec_available. cbn [withdrawals transactions].
  fold (completed_sum (update_withdrawals p id W)). fold (completed_sum W).
  rewrite (completed_sum_update_pending p id W w Hw Hst).
  destruct (String.eqb (p_status p) "completed"); lra.
Qed.

Lemma spec_available_tx W T txHash u :
  spec_available {| withdrawals := W; transactions := update_transactions txHash u T |}
  = spec_available {| withdrawals := W; transactions := T |}.
Proof.
  unfold spec_available. cbn [withdrawals transactions].
  fold (accrued (update_transactions txHash u T)). fold (accrued T).
  now rewrite update_transactions_accrued.
Qed.

(** X9. After a call that ends with the success response, the store having
    applied the commit, the balance of the ledger (the accrual entries times
    the payout share minus the completed withdrawals, in exact arithmetic)
    is the former balance minus the amount of the withdrawal. *)
Theorem payout_reduces_balance env req s w body :
  loads env s req w ->
  let r := run env (Service.processWithdrawal req) s in
  response (trace r) = Some (200%Z, body) ->
  update_withdrawals_fault env AtCommit = NoFault ->
  (spec_available (final r) == spec_available s - exact_amount (w_amount w))%Q.
Proof.
  intros H r. subst r. invert_loads H.
  pose proof (single_inv _ _ Hsingle) as Hrows.
  exec_run; split_catch.
  all: cbn [response]; try discriminate.
  all: intros _ Hc; try discriminate Hc.
  all: apply String.eqb_eq in Heqb.
  all: rewrite ?spec_available_tx; cbn [withdrawals transactions].
  all: rewrite (spec_available_patched _ _ _ _ w Hrows Heqb); cbn [completed_patch p_status].
  all: change (String.eqb "completed" "completed") with true; cbn iota.
  all: now rewrite store_eta.
Qed.

(** X10. A call on a loaded withdrawal that does not get to the commit
    (it is turned down, found insufficient, or fails before or at the
    broadcast) leaves the balance of the ledger unchanged. *)
Theorem failed_attempt_keeps_balance env req s w :
  loads env s req w ->
  let r := run env (Service.processWithdrawal req) s in
  existsb is_commit (trace r) = false ->
  (spec_available (final r) == spec_available s)%Q.
Proof.
  intros H r. subst r. invert_loads H.
  pose proof (single_inv _ _ Hsingle) as Hrows.
  exec_run; split_catch.
  all: cbn [existsb is_commit orb]; try discriminate.
  all: intros _; try reflexivity.
  all: apply String.eqb_eq in Heqb.
  all: unfold patched.
  all: rewrite (spec_available_patched _ _ _ _ w Hrows Heqb); cbn [failed_patch p_status].
  all: change (String.eqb "failed" "completed") with false; cbn iota.
  all: rewrite store_eta; lra.
Qed.

(** ** A failed accrual query *)

Lemma total_completed_nonneg rows :
  Forall (fun w => nonneg_amount (w_amount w) = true) rows ->
  nonneg (total (Some (select_completed rows))) = true.
Proof.
  intros H. unfold select_completed.
  destruct (total_formula (fun w => String.eqb (w_status w) "completed") w_amount rows H)
    as [-> N].
  exact N.
Qed.

(** With no accrual the balance is [0] minus what was paid out. *)
Lemma balance_without_accrual completed amount :
  nonneg (total completed) = true ->
  js_lt zero amount = true ->
  js_le (availableBalance None completed) zero = true /\
  js_lt (availableBalance None completed) amount = true.
Proof.
  unfold availableBalance. cbn [total].
  change (js_mul zero ratio) with zero.
  destruct (total completed) as [[]|[]| |[] mt et]; try discriminate; intros _;
    destruct amount as [[]|[]| |[] ma ea]; try discriminate; intros _;
    split; reflexivity.
Qed.

(** X12. When the accrual query is answered with an error, its rows count
    as none: the computed balance is at most zero, so a pending withdrawal of
    a positive amount is answered 400 as insufficient and marked [failed],
    without any broadcast. *)
Theorem accrual_query_error_fails_withdrawal env req s w :
  loads env s req w ->
  w_status w = "pending" ->
  select_ai_mining_fault env = ReturnsError ->
  (forall e, select_completed_fault env <> Throws e) ->
  Forall (fun x => nonneg_amount (w_amount x) = true) (withdrawals s) ->
  js_lt zero (Number (w_amount w)) = true ->
  update_withdrawals_fault env AtInsufficient = NoFault ->
  let id := js_to_string (withdrawalId req) in
  let r := run env (Service.processWithdrawal req) s in
  submitted (trace r) = false /\
  (exists available,
      response (trace r) = Some (400%Z, InsufficientBody available) /\
      js_le available zero = true) /\
  lookup_status id (final r) = Some "failed".
Proof.
  intros H Hst Ha Hc Hrows Hpos Hup id r. subst id r. invert_loads H.
  pose proof (lookup_patched failed_patch _ _ _ Hsingle) as Hfailed.
  pose proof (total_completed_nonneg _ Hrows) as Htot.
  apply String.eqb_eq in Hst.
  destruct (select_completed_fault env) eqn:Hcf; [| |now destruct (Hc e)].
  - destruct (balance_without_accrual (Some (select_completed (withdrawals s))) _ Htot Hpos)
      as [Hle Hlt].
    exec_run. split; [reflexivity|]. split; [|exact Hfailed].
    eexists. split; [reflexivity|assumption].
  - destruct (balance_without_accrual None _ eq_refl Hpos) as [Hle Hlt].
    exec_run. split; [reflexivity|]. split; [|exact Hfailed].
    eexists. split; [reflexivity|assumption].
Qed.

(** ** An exception after the commit *)

(** X13. When the update of the ledger entry raises after the withdrawal
    was written [completed], the [catch] block answers 500 with that error
    and overwrites the status with [failed], although the transfer was
    broadcast; the row keeps the identifier of the transfer. *)
Theorem post_commit_failure_marks_failed env req s e :
  let id := js_to_string (withdrawalId req) in
  let r := run env (Service.processWithdrawal req) s in
  existsb is_commit (trace r) = true ->
  update_transactions_fault env = Throws e ->
  (forall site, update_withdrawals_fault env site = NoFault) ->
  submitted (trace r) = true /\
  response (trace r) = Some (500%Z, ErrorBody (Service.reported e)) /\
  exists w txHash,
    loads env s req w /\
    truthy txHash = true /\
    In (UpdateWithdrawals AtCommit (completed_patch txHash (clock env AtCompletion)) id)
       (trace r) /\
    map (fun x => (w_status x, w_tx_hash x)) (withdrawals_by_id id (withdrawals (final r)))
    = [("failed", Some (js_to_string txHash))].
Proof.
  intros id r. subst id r.
  destruct (truthy (withdrawalId req)) eqn:Hid;
    [destruct (select_withdrawal_fault env) eqn:Hfetch|].
  all: exec_run; split_catch.
  all: cbn [existsb is_commit orb]; try discriminate.
  all: intros _ Htx Hup; try discriminate Htx; injection Htx as <-.
  all: pose proof (Hup AtCommit); pose proof (Hup AtCatch); try congruence.
  all: split; [reflexivity|]. 
  all: split; [reflexivity|].
  all: eexists _, _; split; [eapply loads_intro; eassumption|].
  all: split; [eassumption|].
  all: split; [cbn; tauto|].
  all: match goal with
       | He : error (single ?X) = false, Hd : data (single ?X) = Some ?w |- _ =>
           pose proof (single_inv _ _ (single_eta _ _ He Hd)) as Hrows
       end.
  all: unfold patched; cbn [withdrawals].
  all: rewrite !by_id_update, Hrows; cbn [map apply_patch w_status w_tx_hash
                                           failed_patch completed_patch p_status p_tx_hash].
  all: match goal with
       | Ht : truthy ?v = true |- _ => destruct v; try discriminate Ht
       end.
  all: reflexivity.
Qed.

(** ** A second call after a payout *)

(** After the success response, with the commit applied, the fetch finds the
    row [completed]. *)
Lemma success_completes env req s body :
  response (trace (run env (Service.processWithdrawal req) s)) = Some (200%Z, body) ->
  update_withdrawals_fault env AtCommit = NoFault ->
  truthy (withdrawalId req) = true /\
  exists w,
    single (withdrawals_by_id (js_to_string (withdrawalId req))
              (withdrawals (final (run env (Service.processWithdrawal req) s))))
    = {| data := Some w; error := false |} /\
    w_status w = "completed".
Proof.
  destruct (truthy (withdrawalId req)) eqn:Hid;
    [destruct (select_withdrawal_fault env) eqn:Hfetch|].
  all: exec_run; split_catch.
  all: cbn [response]; try discriminate.
  all: intros _ Hc; try discriminate Hc.
  all: split; [reflexivity|].
  all: match goal with
       | He : error (single ?X) = false, Hd : data (single ?X) = Some ?w |- _ =>
           pose proof (single_inv _ _ (single_eta _ _ He Hd)) as Hrows
       end.
  all: cbn [withdrawals]; rewrite by_id_update, Hrows; cbn [map single].
  all: eexists; split; reflexivity.
Qed.

(** X14. After a call that ended with the success response and whose commit
    the store applied, a second call on the same id is answered 400
    "Withdrawal already completed", makes no broadcast and no update, and
    leaves the store as the first call left it. *)
Theorem second_call_already_completed env0 env1 req s body :
  let r0 := run env0 (Service.processWithdrawal req) s in
  let r1 := run env1 (Service.processWithdrawal req) (final r0) in
  response (trace r0) = Some (200%Z, body) ->
  update_withdrawals_fault env0 AtCommit = NoFault ->
  select_withdrawal_fault env1 = NoFault ->
  response (trace r1) = Some (400%Z, ErrorBody "Withdrawal already completed") /\
  final r1 = final r0 /\
  submitted (trace r1) = false /\
  existsb is_update (trace r1) = false.
Proof.
  intros r0 r1 Hresp Hcommit Hfetch. subst r1.
  destruct (success_completes env0 req s body Hresp Hcommit) as (Hid & w & Hsingle & Hst).
  fold r0 in Hsingle. clear Hresp Hcommit.
  generalize dependent (final r0). clear r0. intros s1 Hsingle.
  assert (Hst' : String.eqb (w_status w) "pending" = false) by now rewrite Hst.
  exec_run. repeat split.
Qed.

(** ** The two files *)

(** X15. The two files derive the treasury identity by different calls
    ([createIdPackage], not awaited, against an awaited
    [createPublicIdFromSeed]).  Where both calls answer alike, a built and
    broadcast transfer always has an identifier and the compensating update
    of the [catch] block does not raise, the two files leave the same store,
    answer with the same status code, and issue the same updates and the
    same broadcast. *)
Theorem files_agree env req s :
  createPublicIdFromSeed env = createIdPackage env ->
  identified env ->
  (forall e, update_withdrawals_fault env AtCatch <> Throws e) ->
  let r := run env (Service.processWithdrawal req) s in
  let r' := run env (ServiceCopy.processWithdrawal req) s in
  final r' = final r /\
  option_map fst (response (trace r')) = option_map fst (response (trace r)) /\
  filter is_update (trace r') = filter is_update (trace r) /\
  broadcasts (trace r') = broadcasts (trace r).
Proof.
  intros Hsame Hident Hcatch r r'. subst r r'.
  destruct (truthy (withdrawalId req)) eqn:Hid.
  all: exec_run.
  all: exec_run.
  all: try match goal with
           | H1 : build_transfer _ _ _ _ _ = Ok ?b, H2 : broadcast_json _ = Ok ?t,
             H3 : truthy (js_or ?t (getTxId ?b)) = false |- _ =>
               rewrite (Hident _ _ _ _ _ _ H1 H2) in H3; discriminate H3
           end.
  all: split_catch.
  all: try (exfalso; eapply Hcatch; first [eassumption | reflexivity]).
  all: repeat split.
Qed.

(** ** Further instances on the sample data *)

Lemma missing_id_rejected_witness :
  response (trace (run Sample.env (Service.processWithdrawal Cases.anonymous) Sample.store))
  = Some (400%Z, ErrorBody "Missing withdrawalId parameter") /\
  final (run Sample.env (ServiceCopy.processWithdrawal Cases.anonymous) Sample.store)
  = Sample.store.
Proof.
  destruct (missing_id_rejected Sample.env Cases.anonymous Sample.store eq_refl)
    as [(H & _ & _) (_ & H' & _)].
  split; assumption.
Defined.

Lemma broadcast_is_guarded_witness :
  exists w available tickData source transaction,
    loads Sample.env Sample.store Sample.req w /\
    w_status w = "pending" /\
    computes Sample.env Sample.store available /\
    js_lt available (Number (w_amount w)) = false /\
    status_json Sample.env = Ok tickData /\
    createIdPackage Sample.env = Ok source /\
    build_transfer Sample.env source (Number (w_amount w)) (w_to_address w)
                   (targetTick tickData)
    = Ok transaction /\
    broadcasts (trace (run Sample.env (Service.processWithdrawal Sample.req) Sample.store))
    = [FetchBroadcast (base64Transaction transaction)].
Proof.
  apply (broadcast_is_guarded Sample.env Sample.req Sample.store). reflexivity.
Defined.

Lemma success_means_committed_witness :
  truthy (JsStr "TX1") = true /\
  List.length
    (broadcasts (trace (run Sample.env (Service.processWithdrawal Sample.req) Sample.store)))
  = 1%nat.
Proof.
  destruct (success_means_committed Sample.env Sample.req Sample.store
              (JsStr "TX1") "https://explorer.qubic.org/network/tx/TX1" 20%Z eq_refl)
    as (H1 & _ & H2 & _).
  split; assumption.
Defined.

Lemma call_preserves_requests_witness :
  map request_fields
      (withdrawals (final (run Sample.env (Service.processWithdrawal Sample.req) Sample.store)))
  = map request_fields (withdrawals Sample.store).
Proof.
  destruct (call_preserves_requests Sample.env Sample.req Sample.store) as [(H & _) _].
  exact H.
Defined.

Lemma payout_reduces_balance_witness :
  (spec_available (final (run Sample.env (Service.processWithdrawal Sample.req) Sample.store))
   == spec_available Sample.store - exact_amount (w_amount Sample.w1))%Q.
Proof.
  apply (payout_reduces_balance Sample.env Sample.req Sample.store Sample.w1
           (SuccessBody (JsStr "TX1") "https://explorer.qubic.org/network/tx/TX1" 20%Z)).
  - split; reflexivity.
  - reflexivity.
  - reflexivity.
Defined.

Lemma accrual_query_error_fails_withdrawal_witness :
  let r := run Cases.accrual_error (Service.processWithdrawal Sample.req) Sample.store in
  submitted (trace r) = false /\
  (exists available,
      response (trace r) = Some (400%Z, InsufficientBody available) /\
      js_le available zero = true) /\
  lookup_status "w1" (final r) = Some "failed".
Proof.
  apply (accrual_query_error_fails_withdrawal Cases.accrual_error Sample.req Sample.store
           Sample.w1).
  - split; reflexivity.
  - reflexivity.
  - reflexivity.
  - intros e. discriminate.
  - repeat constructor.
  - reflexivity.
  - reflexivity.
Defined.

Lemma post_commit_failure_marks_failed_witness :
  let r := run Cases.ledger_lost (Service.processWithdrawal Sample.req) Sample.store in
  submitted (trace r) = true /\
  response (trace r) = Some (500%Z, ErrorBody "ledger lost").
Proof.
  destruct (post_commit_failure_marks_failed Cases.ledger_lost Sample.req Sample.store
              (mkError "ledger lost") eq_refl eq_refl (fun _ => eq_refl))
    as (H1 & H2 & _).
  split; assumption.
Defined.

Lemma second_call_already_completed_witness :
  let r0 := run Sample.env (Service.processWithdrawal Sample.req) Sample.store in
  let r1 := run Sample.env (Service.processWithdrawal Sample.req) (final r0) in
  response (trace r1) = Some (400%Z, ErrorBody "Withdrawal already completed") /\
  final r1 = final r0 /\
  submitted (trace r1) = false /\
  existsb is_update (trace r1) = false.
Proof.
  apply (second_call_already_completed Sample.env Sample.env Sample.req Sample.store
           (SuccessBody (JsStr "TX1") "https://explorer.qubic.org/network/tx/TX1" 20%Z));
    reflexivity.
Defined.

Lemma files_agree_witness :
  final (run Sample.env (ServiceCopy.processWithdrawal Sample.req) Sample.store)
  = final (run Sample.env (Service.processWithdrawal Sample.req) Sample.store).
Proof.
  destruct (files_agree Sample.env Sample.req Sample.store) as (H & _).
  - reflexivity.
  - intros source amount to tick transaction txId Hb _. injection Hb as <-.
    unfold js_or. destruct (truthy txId) eqn:E; [assumption | reflexivity].
  - intros e. discriminate.
  - exact H.
Defined.

Lemma failed_attempt_keeps_balance_witness :
  (spec_available (final (run Sample.refusing (Service.processWithdrawal Sample.req) Sample.store))
   == spec_available Sample.store)%Q.
Proof.
  apply (failed_attempt_keeps_balance Sample.refusing Sample.req Sample.store Sample.w1).
  - split; reflexivity.
  - reflexivity.
Defined.

Lemma identifier_prefers_gateway_witness :
  exists source amount to tick transaction txId,
    In (BuildTransfer source amount to tick)
       (trace (run Sample.env (Service.processWithdrawal Sample.req) Sample.store)) /\
    build_transfer Sample.env source amount to tick = Ok transaction /\
    broadcast_json Sample.env = Ok txId /\
    JsStr "TX1" = (if truthy txId then txId else getTxId transaction).
Proof.
  apply (identifier_prefers_gateway Sample.env Sample.req Sample.store (JsStr "TX1")
           "https://explorer.qubic.org/network/tx/TX1" 20%Z).
  reflexivity.
Defined.
